(** * Education Indicators Dashboard (app.py): loader, filters, KPIs, views

    A shallow embedding of [src/app.py].  The script is a pipeline

      load_edstats  ->  sidebar defaults / filter  ->  KPIs and four charts

    pandas values are modelled as follows.
    - A float64 is a finite rational, an infinity or NaN; rounding to
      binary64 is not modelled, the null test [isna] only looks at NaN.
    - A cell of the frame returned by [pd.read_csv] is a float (numeric
      columns, and the NaN that stands for an empty cell) or a str (text
      columns).  Columns inferred as boolean are outside the model.
    - Python str is a [string] of bytes; the regular expression class [\d]
      is taken on ASCII digits, which is what it is on ASCII names.  A
      column name with other decimal digits is matched by Python and not
      here; the properties that need the two to agree say so.
    - The token parser behind [pd.to_numeric] is library code: the loader
      is written over an arbitrary parser [floatify].  What the proofs ask
      of it is [year_tokens]: a four-digit column name is read as the
      integer [int] gives, or not read at all (its records are then
      dropped for their null Year).  [decimal_floatify] is a concrete
      parser used to run the model.
    - The chart renderer is outside the repository and is not modelled: a
      chart is the description the script builds, with the selections it
      adds and the selections it refers to. *)

From Stdlib Require Import ZArith List String Ascii QArith Qround Bool Lia.
From Stdlib Require Import Sorting.Sorted Permutation.
Import ListNotations.

Open Scope string_scope.
Open Scope list_scope.
Open Scope Z_scope.

(** ** Exceptions *)

Inductive exn : Type :=
| ValueError (msg : string)
| TypeError (msg : string)
| IndexError (msg : string)
| ZeroDivisionError (msg : string)
| IOError (msg : string).

(** [str(e)] *)
Definition exn_str (e : exn) : string :=
  match e with
  | ValueError m | TypeError m | IndexError m
  | ZeroDivisionError m | IOError m => m
  end.

Inductive except (A : Type) : Type :=
| Ok (a : A)
| Raise (e : exn).

Arguments Ok {A} a.
Arguments Raise {A} e.

Definition bind {A B : Type} (m : except A) (k : A -> except B) : except B :=
  match m with
  | Ok a => k a
  | Raise e => Raise e
  end.

Notation "x <- m ;; k" := (bind m (fun x => k))
  (at level 61, m at next level, right associativity).

Fixpoint mapM {A B : Type} (f : A -> except B) (l : list A) : except (list B) :=
  match l with
  | [] => Ok []
  | a :: t => b <- f a ;; bs <- mapM f t ;; Ok (b :: bs)
  end.

(** ** Values *)

Inductive float64 : Type :=
| Finite (q : Q)
| Inf (negative : bool)
| NaN.

Inductive cell : Type :=
| CFloat (f : float64)
| CStr (s : string).

(** [Series.isna] on a float column. *)
Definition isna (f : float64) : bool :=
  match f with
  | NaN => true
  | _ => false
  end.

(** [isna] on an object cell: a str is never null. *)
Definition cell_isna (c : cell) : bool :=
  match c with
  | CFloat f => isna f
  | CStr _ => false
  end.

(** ** Frames *)

Record DataFrame : Type := {
  columns : list string;
  rows : list (list cell)
}.

Definition mem (c : string) (l : list string) : bool :=
  existsb (String.eqb c) l.

(** Position of the first column called [c]. *)
Fixpoint get_loc (c : string) (cols : list string) : nat :=
  match cols with
  | [] => O
  | x :: t => if String.eqb c x then O else S (get_loc c t)
  end.

Definition cell_at (cols : list string) (r : list cell) (c : string) : cell :=
  nth (get_loc c cols) r (CFloat NaN).

(** [df[cols]] *)
Definition getitem (df : DataFrame) (cols : list string) : DataFrame :=
  {| columns := cols;
     rows := map (fun r => map (cell_at (columns df) r) cols) (rows df) |}.

Record melted : Type := {
  m_ids : list cell;
  m_variable : string;
  m_value : cell
}.

(** [frame.melt(id_vars, value_vars)]: one output row per value column and
    input row, value columns outermost. *)
Definition melt (frame : DataFrame) (id_vars value_vars : list string)
  : list melted :=
  flat_map
    (fun v =>
       map (fun r =>
              {| m_ids := map (cell_at (columns frame) r) id_vars;
                 m_variable := v;
                 m_value := cell_at (columns frame) r v |})
           (rows frame))
    value_vars.

(** ** Python helpers *)

Definition is_digit (c : ascii) : bool :=
  let n := Z.of_N (N_of_ascii c) in (48 <=? n) && (n <=? 57).

Definition digit_val (c : ascii) : Z := Z.of_N (N_of_ascii c) - 48.

Fixpoint all_digits (s : string) : bool :=
  match s with
  | "" => true
  | String c t => is_digit c && all_digits t
  end.

(** [re.fullmatch(r"\d{4}", s)] is not None, for the ASCII digits. *)
Definition fullmatch_d4 (s : string) : bool :=
  Nat.eqb (String.length s) 4 && all_digits s.

Fixpoint int_acc (acc : Z) (s : string) : Z :=
  match s with
  | "" => acc
  | String c t => int_acc (acc * 10 + digit_val c) t
  end.

(** [int(s)] for a string of decimal digits. *)
Definition py_int (s : string) : Z := int_acc 0 s.

Section Sorted.
Context {A : Type} (le : A -> A -> bool).

Fixpoint insort (x : A) (l : list A) : list A :=
  match l with
  | [] => [x]
  | y :: t => if le x y then x :: y :: t else y :: insort x t
  end.

(** [sorted(l)]: the stable sort. *)
Definition sorted (l : list A) : list A := fold_right insort [] l.
End Sorted.

Definition sorted_by_int (l : list string) : list string :=
  sorted (fun x y => py_int x <=? py_int y) l.

(** [repr] of a list of plain strings, as an f-string prints it. *)
Fixpoint join (sep : string) (l : list string) : string :=
  match l with
  | [] => ""
  | [x] => x
  | x :: t => (x ++ sep ++ join sep t)%string
  end.

Definition repr_list (l : list string) : string :=
  ("[" ++ join ", " (map (fun s => "'" ++ s ++ "'")%string l) ++ "]")%string.

(** ** Load + reshape *)

Record record (Y : Type) : Type := {
  ids : list cell;
  Year : Y;
  Value : float64;
  Missing : bool
}.

Arguments ids {Y} r.
Arguments Year {Y} r.
Arguments Value {Y} r.
Arguments Missing {Y} r.

Definition Country_Name {Y} (r : record Y) : cell := nth 0 (ids r) (CFloat NaN).
Definition Country_Code {Y} (r : record Y) : cell := nth 1 (ids r) (CFloat NaN).
Definition Indicator_Name {Y} (r : record Y) : cell := nth 2 (ids r) (CFloat NaN).
Definition Indicator_Code {Y} (r : record Y) : cell := nth 3 (ids r) (CFloat NaN).

Definition required_cols : list string :=
  ["Country Name"; "Country Code"; "Indicator Name"; "Indicator Code"].

Definition in_bound (y : Z) : bool := (1970 <=? y) && (y <=? 2015).

Definition year_cols (df : DataFrame) : list string :=
  let year_cols := filter fullmatch_d4 (columns df) in
  let year_cols := filter (fun c => in_bound (py_int c)) year_cols in
  sorted_by_int year_cols.

Definition missing_required (df : DataFrame) : list string :=
  filter (fun c => negb (mem c (columns df))) required_cols.

(** [.astype("Int64")] on one element of a float column. *)
Definition astype_Int64 (f : float64) : except (option Z) :=
  match f with
  | NaN => Ok None
  | Finite q =>
      if Qeq_bool q (inject_Z (Qfloor q)) then Ok (Some (Qfloor q))
      else Raise (TypeError "cannot safely cast non-equivalent float64 to int64")
  | Inf _ => Raise (TypeError "cannot safely cast non-equivalent float64 to int64")
  end.

Definition dropna_Year (l : list (record (option Z))) : list (record (option Z)) :=
  filter (fun r => match Year r with Some _ => true | None => false end) l.

(** [.astype(int)] on the Year column once the nulls are gone. *)
Definition astype_int (l : list (record (option Z))) : list (record Z) :=
  flat_map
    (fun r => match Year r with
              | Some y => [{| ids := ids r; Year := y;
                              Value := Value r; Missing := Missing r |}]
              | None => []
              end) l.

Section Loader.
(** The token parser of [pd.to_numeric]: [None] when the token is not
    numeric. *)
Variable floatify : string -> option float64.

(** [pd.to_numeric(_, errors="coerce")] on one element. *)
Definition to_numeric_coerce (c : cell) : float64 :=
  match c with
  | CFloat f => f
  | CStr s => match floatify s with
              | Some f => f
              | None => NaN
              end
  end.

(** [long_df["Year"] = pd.to_numeric(long_df["Year"], errors="coerce").astype("Int64")] *)
Definition assign_Year (long_df : list melted) : except (list (melted * option Z)) :=
  mapM (fun m =>
          y <- astype_Int64 (to_numeric_coerce (CStr (m_variable m))) ;;
          Ok (m, y))
       long_df.

(** [long_df["Value"] = pd.to_numeric(long_df["Value"], errors="coerce")] *)
Definition assign_Value (long_df : list (melted * option Z))
  : list (melted * option Z * float64) :=
  map (fun my => (my, to_numeric_coerce (m_value (fst my)))) long_df.

(** [long_df["Missing"] = long_df["Value"].isna()] *)
Definition assign_Missing (long_df : list (melted * option Z * float64))
  : list (record (option Z)) :=
  map (fun myv =>
         {| ids := m_ids (fst (fst myv));
            Year := snd (fst myv);
            Value := snd myv;
            Missing := isna (snd myv) |})
      long_df.

Definition load_edstats (csv : except DataFrame) : except (list (record Z)) :=
  df <- csv ;;
  let year_cols := year_cols df in
  let missing_required := missing_required df in
  match missing_required with
  | _ :: _ =>
      Raise (ValueError
               ("Missing columns in CSV: " ++ repr_list missing_required)%string)
  | [] =>
      let long_df :=
        melt (getitem df (required_cols ++ year_cols)) required_cols year_cols in
      long_df <- assign_Year long_df ;;
      let long_df := assign_Value long_df in
      let long_df := assign_Missing long_df in
      let long_df := dropna_Year long_df in
      Ok (astype_int long_df)
  end.
End Loader.

(** ** A decimal token parser

    Optional sign, then [inf], [infinity] or [nan] in any case, or digits
    with an optional fraction and an optional exponent. *)

Definition split_sign (s : string) : bool * string :=
  match s with
  | String "-" t => (true, t)
  | String "+" t => (false, t)
  | _ => (false, s)
  end.

Definition lower (c : ascii) : ascii :=
  let n := N_of_ascii c in
  if ((65 <=? n) && (n <=? 90))%N then ascii_of_N (n + 32) else c.

Fixpoint lower_str (s : string) : string :=
  match s with
  | "" => ""
  | String c t => String (lower c) (lower_str t)
  end.

Fixpoint take_digits (acc n : Z) (s : string) : Z * Z * string :=
  match s with
  | "" => (acc, n, "")
  | String c t =>
      if is_digit c then take_digits (acc * 10 + digit_val c) (n + 1) t
      else (acc, n, s)
  end.

(** [m * 10^k] *)
Definition scale10 (m k : Z) : Q :=
  if 0 <=? k then inject_Z (m * 10 ^ k) else (m # Z.to_pos (10 ^ (- k)))%Q.

Definition decimal_floatify (s : string) : option float64 :=
  let (neg, body) := split_sign s in
  let word := lower_str body in
  if (word =? "inf")%string || (word =? "infinity")%string then Some (Inf neg)
  else if (word =? "nan")%string then Some NaN
  else
    let '(ip, ni, rest) := take_digits 0 0 body in
    let '(m, nf, rest) :=
      match rest with
      | String "." t => take_digits ip 0 t
      | _ => (ip, 0, rest)
      end in
    if ni + nf =? 0 then None
    else
      let m := if neg then - m else m in
      match rest with
      | "" => Some (Finite (scale10 m (- nf)))
      | String e t =>
          if ((e =? "e") || (e =? "E"))%char then
            let (eneg, t) := split_sign t in
            let '(ev, ne, rest) := take_digits 0 0 t in
            if (ne =? 0) || negb (rest =? "")%string then None
            else Some (Finite (scale10 m ((if eneg then - ev else ev) - nf)))
          else None
      end.

(** ** Sidebar filters *)

(** [series.dropna().tolist()] for a text column: the strs that are left
    once the nulls are dropped.  The identity columns hold text; a number
    in one of them is outside the model and is left out here. *)
Definition dropna_str (l : list cell) : list string :=
  flat_map (fun c => match c with CStr s => [s] | CFloat _ => [] end) l.

(** [series.unique()]: distinct values in order of first appearance. *)
Fixpoint unique (l : list string) : list string :=
  match l with
  | [] => []
  | x :: t => x :: filter (fun y => negb (y =? x)%string) (unique t)
  end.

(** [c == v] for an object cell and a str or [None]. *)
Definition cell_eq (c : cell) (v : option string) : bool :=
  match c, v with
  | CStr s, Some t => (s =? t)%string
  | _, _ => false
  end.

Definition countries (data : list (record Z)) : list string :=
  sorted String.leb (unique (dropna_str (map Country_Name data))).

Definition indicators (data : list (record Z)) : list string :=
  sorted String.leb (unique (dropna_str (map Indicator_Name data))).

(** [l[0]] *)
Definition first_item (l : list string) : except string :=
  match l with
  | x :: _ => Ok x
  | [] => Raise (IndexError "list index out of range")
  end.

(** [l.index(x)] *)
Fixpoint list_index (x : string) (l : list string) : except nat :=
  match l with
  | [] => Raise (ValueError "x is not in list")
  | y :: t => if (y =? x)%string then Ok O
              else i <- list_index x t ;; Ok (S i)
  end.

Definition default_country (countries : list string) : except string :=
  if mem "Arab World" countries then Ok "Arab World" else first_item countries.

Definition ind_for_country (data : list (record Z)) (country : option string)
  : list string :=
  sorted String.leb
    (unique (dropna_str
       (map Indicator_Name
            (filter (fun r => cell_eq (Country_Name r) country) data)))).

Definition candidates : list string :=
  ["School enrollment, primary, female (% gross)";
   "School enrollment, primary, female (% net)";
   "Adjusted net enrolment rate, primary, female (%)"].

(** The [for candidate in ...: if candidate in ind_for_country: ... break]
    loop; [None] when no candidate is found. *)
Definition default_indicator (ind_for_country : list string) : option string :=
  find (fun candidate => mem candidate ind_for_country) candidates.

(** The [index=] argument of the indicator select box. *)
Definition indicator_index (ind_for_country : list string) : except nat :=
  match default_indicator ind_for_country with
  | Some d => if mem d ind_for_country then list_index d ind_for_country else Ok O
  | None => Ok O
  end.

(** [st.sidebar.selectbox(label, options, index)]: the option the user
    picked, the option at [index] while nothing valid is picked, [None]
    without options. *)
Definition selectbox (options : list string) (index : nat) (picked : option nat)
  : option string :=
  match picked with
  | Some i => match nth_error options i with
              | Some v => Some v
              | None => nth_error options index
              end
  | None => nth_error options index
  end.

Definition between (y lo hi : Z) : bool := (lo <=? y) && (y <=? hi).

(** [data[(data["Country Name"] == country) & (data["Indicator Name"] == indicator)
         & (data["Year"].between(year_min, year_max))].copy()] *)
Definition filter_view (data : list (record Z)) (country indicator : option string)
    (year_min year_max : Z) : list (record Z) :=
  filter (fun r => cell_eq (Country_Name r) country
                   && cell_eq (Indicator_Name r) indicator
                   && between (Year r) year_min year_max)
         data.

(** What [st.sidebar.slider("Year range", 1970, 2015, (1970, 2015))] can
    return: an ordered pair inside the bounds. *)
Definition slider_range (year_min year_max : Z) : Prop :=
  1970 <= year_min /\ year_min <= year_max /\ year_max <= 2015.

(** ** Basic checks and KPIs *)

Definition total_years (year_min year_max : Z) : Z := year_max - year_min + 1.

Definition non_missing (df : list (record Z)) : Z :=
  Z.of_nat (List.length (filter (fun r => negb (Missing r)) df)).

(** [a / b] on ints: the error on a zero divisor, and otherwise the exact
    quotient.  Python rounds the quotient to binary64; the rounding is not
    modelled, so only what survives it is stated of the result. *)
Definition truediv (a b : Z) : except Q :=
  if b =? 0 then Raise (ZeroDivisionError "division by zero")
  else Ok (inject_Z a / inject_Z b)%Q.

(** The numbers shown in the three tiles; the percentages are kept exact,
    their [.1f] formatting is not modelled. *)
Record kpis : Type := {
  selected_years : Z * Z;
  selected_delta : Z;
  non_missing_points : Z;
  coverage_pct : Q;
  missing_points : Z;
  missing_pct : Q
}.

Definition kpi_row (df : list (record Z)) (year_min year_max : Z) : except kpis :=
  let total_years := total_years year_min year_max in
  let non_missing := non_missing df in
  coverage <- truediv non_missing total_years ;;
  missing <- truediv (total_years - non_missing) total_years ;;
  Ok {| selected_years := (year_min, year_max);
        selected_delta := total_years;
        non_missing_points := non_missing;
        coverage_pct := (coverage * 100)%Q;
        missing_points := total_years - non_missing;
        missing_pct := (missing * 100)%Q |}.

(** ** Charts

    A chart is the declarative description the script hands to the
    renderer: its data, its mark and channels, the selections it adds with
    [.add_params], whether it carries [.transform_filter(brush)], and its
    opacity conditioned on [brush]. *)

Inductive mark : Type := mark_line | mark_circle | mark_bar.

Inductive x_channel : Type :=
| x_Year_Q       (* "Year:Q" *)
| x_Year_O       (* "Year:O" *)
| x_Value_binned (* "Value:Q", bin=alt.Bin(maxbins=30) *).

Inductive y_channel : Type :=
| y_Value           (* "Value:Q" *)
| y_mean_MissingInt (* "mean(MissingInt):Q" *)
| y_count           (* "count():Q" *).

(** The two selections of the script. *)
Inductive selection : Type :=
| brush (* alt.selection_interval(encodings=["x"], name="brush") *)
| pt    (* alt.selection_point(encodings=["x"], name="pt", toggle=True) *).

Record chart : Type := {
  chart_data : list (record Z);
  chart_mark : mark;
  chart_x : x_channel;
  chart_y : y_channel;
  add_params : list selection;
  transform_filter : bool;      (* .transform_filter(brush) *)
  transform_regression : bool;  (* .transform_regression("Year", "Value") *)
  opacity : option (Q * Q)      (* alt.condition(brush, alt.value _, alt.value _) *)
}.

(** [df.dropna(subset=["Value"])] *)
Definition dropna_Value (df : list (record Z)) : list (record Z) :=
  filter (fun r => negb (isna (Value r))) df.

Definition trend (df : list (record Z)) : chart :=
  {| chart_data := df; chart_mark := mark_line;
     chart_x := x_Year_Q; chart_y := y_Value;
     add_params := [brush; pt];
     transform_filter := false; transform_regression := false;
     opacity := Some (1, 25 # 100)%Q |}.

Definition scatter (df : list (record Z)) : chart :=
  {| chart_data := dropna_Value df; chart_mark := mark_circle;
     chart_x := x_Year_Q; chart_y := y_Value;
     add_params := [];
     transform_filter := true; transform_regression := false;
     opacity := Some (1, 15 # 100)%Q |}.

Definition reg_line (df : list (record Z)) : chart :=
  {| chart_data := dropna_Value df; chart_mark := mark_line;
     chart_x := x_Year_Q; chart_y := y_Value;
     add_params := [];
     transform_filter := true; transform_regression := true;
     opacity := None |}.


Definition missing_rate (df : list (record Z)) : chart :=
  {| chart_data := df; chart_mark := mark_bar;
     chart_x := x_Year_O; chart_y := y_mean_MissingInt;
     add_params := [];
     transform_filter := false; transform_regression := false;
     opacity := Some (1, 25 # 100)%Q |}.

Definition hist (df : list (record Z)) : chart :=
  {| chart_data := dropna_Value df; chart_mark := mark_bar;
     chart_x := x_Value_binned; chart_y := y_count;
     add_params := [];
     transform_filter := true; transform_regression := false;
     opacity := None |}.

(** *** Selections added and selections referred to

    Each chart goes to the renderer in a call of its own
    ([st.altair_chart], one per view), so the selections a description can
    refer to are the ones it adds itself. *)




(** ** The script *)

Record page : Type := {
  page_kpis : kpis;
  page_trend : chart;
  page_model : chart * chart;
  page_missing_rate : chart;
  page_hist : chart
}.

(** What the user has set in the sidebar; nothing picked on the first run. *)
Record session : Type := {
  picked_country : option nat;
  picked_indicator : option nat;
  year_range : Z * Z
}.

Inductive outcome : Type :=
| Stopped (error : string)      (* st.error(...); st.stop() *)
| Uncaught (e : exn)
| Rendered (p : page).

(** The country select box with its default. *)
Definition country_box (countries : list string) (picked : option nat)
  : except (option string) :=
  default_country <- default_country countries ;;
  index <- list_index default_country countries ;;
  Ok (selectbox countries index picked).

(** The indicator select box with its default. *)
Definition indicator_box (ind_for_country : list string) (picked : option nat)
  : except (option string) :=
  index <- indicator_index ind_for_country ;;
  Ok (selectbox ind_for_country index picked).

Definition render (data : list (record Z)) (ui : session) : except page :=
  let countries := countries data in
  country <- country_box countries (picked_country ui) ;;
  let ind_for_country := ind_for_country data country in
  indicator <- indicator_box ind_for_country (picked_indicator ui) ;;
  let '(year_min, year_max) := year_range ui in
  let df := filter_view data country indicator year_min year_max in
  kpis <- kpi_row df year_min year_max ;;
  Ok {| page_kpis := kpis;
        page_trend := trend df;
        page_model := (scatter df, reg_line df);
        page_missing_rate := missing_rate df;
        page_hist := hist df |}.

Definition script (floatify : string -> option float64)
    (csv : except DataFrame) (ui : session) : outcome :=
  match load_edstats floatify csv with
  | Raise e =>
      Stopped ("Could not load CSV from Google Drive. Details: " ++ exn_str e)%string
  | Ok data =>
      match render data ui with
      | Ok p => Rendered p
      | Raise e => Uncaught e
      end
  end.

(** ** Notions used to state the properties *)

(** What the loader needs of the parser on year columns: a four-digit token
    is read as the integer [int] gives, or not read at all. *)
Definition year_tokens (floatify : string -> option float64) : Prop :=
  forall s, fullmatch_d4 s = true ->
            floatify s = Some (Finite (inject_Z (py_int s))) \/ floatify s = None.

(** The year columns whose name the parser reads; the records of the others
    get a null Year and are dropped. *)
Definition year_read (floatify : string -> option float64) (c : string) : bool :=
  match floatify c with
  | Some _ => true
  | None => false
  end.

Definition read_year_cols (floatify : string -> option float64) (df : DataFrame)
  : list string :=
  filter (year_read floatify) (year_cols df).

Definition read_year (floatify : string -> option float64) (c : string) : option Z :=
  if year_read floatify c then Some (py_int c) else None.

(** The canonical table in closed form: one record per in-bound year
    column that is read and source row. *)
Definition long_form (floatify : string -> option float64) (df : DataFrame)
  : list (record Z) :=
  flat_map
    (fun c =>
       map (fun r =>
              {| ids := map (cell_at (columns df) r) required_cols;
                 Year := py_int c;
                 Value := to_numeric_coerce floatify (cell_at (columns df) r c);
                 Missing := isna (to_numeric_coerce floatify (cell_at (columns df) r c)) |})
           (rows df))
    (read_year_cols floatify df).

(** A parser that does not read the token 1971. *)
Definition picky_floatify (s : string) : option float64 :=
  if (s =? "1971")%string then None else decimal_floatify s.

(** A name of ASCII characters only.  On such names the digit test of
    [fullmatch_d4] is the one [re.fullmatch(r"\d{4}", _)] makes, and [int]
    tells two four-digit names apart. *)
Fixpoint ascii_name (s : string) : bool :=
  match s with
  | "" => true
  | String c t => (N_of_ascii c <? 128)%N && ascii_name t
  end.

(** A source row whose four identity cells are all present. *)
Definition identity_present (cols : list string) (r : list cell) : bool :=
  forallb (fun c => negb (cell_isna (cell_at cols r c))) required_cols.

Definition valid_identity_rows (df : DataFrame) : list (list cell) :=
  filter (identity_present (columns df)) (rows df).

(** The (Country Name, Indicator Name) of a source row, and the
    (Country Name, Indicator Name, Year) of a canonical record. *)
Definition row_key (cols : list string) (r : list cell) : cell * cell :=
  (cell_at cols r "Country Name", cell_at cols r "Indicator Name").

Definition triple (r : record Z) : cell * cell * Z :=
  (Country_Name r, Indicator_Name r, Year r).

(** ** Sample frames *)

Definition num (z : Z) : cell := CFloat (Finite (inject_Z z)).

Definition edstats_sample : DataFrame :=
  {| columns := required_cols ++ ["1968"; "2015"; "1970"; "Unnamed: 9"; "2016"; "1971"];
     rows :=
       [ [CStr "Arab World"; CStr "ARB";
          CStr "School enrollment, primary, female (% net)"; CStr "SE.PRM.NENR.FE";
          num 61; CStr ".."; num 63; CFloat NaN; num 90; CStr "64.5"];
         [CStr "Albania"; CStr "ALB";
          CStr "Population, total"; CStr "SP.POP.TOTL";
          num 1; num 2880703; CFloat NaN; CFloat NaN; num 5; CStr "2.2e6"] ] |}.

(** One row without a Country Name. *)
Definition nameless_frame : DataFrame :=
  {| columns := required_cols ++ ["1970"];
     rows := [ [CFloat NaN; CStr "ARB"; CStr "Population, total";
                CStr "SP.POP.TOTL"; num 7] ] |}.

(** The same (country, indicator) on two rows. *)
Definition repeated_frame : DataFrame :=
  {| columns := required_cols ++ ["1970"];
     rows := [ [CStr "Arab World"; CStr "ARB"; CStr "Population, total";
                CStr "SP.POP.TOTL"; num 7];
               [CStr "Arab World"; CStr "ARB"; CStr "Population, total";
                CStr "SP.POP.TOTL"; num 8] ] |}.

(** A source without its two code columns. *)
Definition codeless_frame : DataFrame :=
  {| columns := ["Country Name"; "Indicator Name"; "1970"; "1971"];
     rows := [ [CStr "Arab World"; CStr "Population, total"; num 7; CStr ".."] ] |}.

Definition first_run : session :=
  {| picked_country := None; picked_indicator := None; year_range := (1970, 2015) |}.

(** * Properties *)

(** ** Lists, sorting, strings *)

Lemma mem_In (c : string) (l : list string) : mem c l = true <-> In c l.
Proof.
  unfold mem. rewrite existsb_exists. split.
  - intros [x [Hx Heq]]. apply String.eqb_eq in Heq. now subst.
  - intros H. exists c. split; [assumption | apply String.eqb_refl].
Qed.

Lemma mem_false (c : string) (l : list string) : mem c l = false <-> ~ In c l.
Proof.
  rewrite <- mem_In. destruct (mem c l); split; congruence.
Qed.

Section SortedFacts.
Context {A : Type} (le : A -> A -> bool).

Lemma insort_perm (x : A) (l : list A) : Permutation (x :: l) (insort le x l).
Proof.
  induction l as [| y t IH]; simpl.
  - apply Permutation_refl.
  - destruct (le x y).
    + apply Permutation_refl.
    + eapply perm_trans; [apply perm_swap |]. now apply perm_skip.
Qed.

Lemma sorted_perm (l : list A) : Permutation l (sorted le l).
Proof.
  induction l as [| x t IH]; simpl.
  - apply perm_nil.
  - eapply perm_trans; [apply perm_skip, IH | apply insort_perm].
Qed.

Lemma sorted_In (l : list A) (x : A) : In x (sorted le l) <-> In x l.
Proof.
  split; apply Permutation_in; [apply Permutation_sym |]; apply sorted_perm.
Qed.

Lemma sorted_length (l : list A) : List.length (sorted le l) = List.length l.
Proof. symmetry. apply Permutation_length, sorted_perm. Qed.

Lemma sorted_NoDup (l : list A) : NoDup l -> NoDup (sorted le l).
Proof. apply Permutation_NoDup, sorted_perm. Qed.

Hypothesis le_total : forall x y, le x y = true \/ le y x = true.
Hypothesis le_trans : forall x y z, le x y = true -> le y z = true -> le x z = true.

Lemma insort_sorted (x : A) (l : list A) :
  StronglySorted (fun a b => le a b = true) l ->
  StronglySorted (fun a b => le a b = true) (insort le x l).
Proof.
  induction 1 as [| y t Hs IH Hall]; simpl.
  - constructor; constructor.
  - destruct (le x y) eqn:E.
    + constructor; [now constructor |].
      constructor; [assumption |].
      eapply Forall_impl; [| exact Hall]. intros a Ha. eapply le_trans; eauto.
    + constructor; [assumption |].
      assert (Hyx : le y x = true) by (destruct (le_total x y); congruence).
      rewrite Forall_forall in *. intros a Ha.
      apply (Permutation_in _ (Permutation_sym (insort_perm x t))) in Ha.
      destruct Ha as [<- | Ha]; auto.
Qed.

Lemma sorted_sorted (l : list A) :
  StronglySorted (fun a b => le a b = true) (sorted le l).
Proof.
  induction l as [| x t IH]; simpl; [constructor | now apply insort_sorted].
Qed.
End SortedFacts.

Lemma mapM_ok {A B : Type} (f : A -> except B) (g : A -> B) (l : list A) :
  (forall a, In a l -> f a = Ok (g a)) -> mapM f l = Ok (map g l).
Proof.
  induction l as [| a t IH]; intros H; simpl.
  - reflexivity.
  - rewrite (H a (or_introl eq_refl)). simpl.
    rewrite IH by (intros; apply H; now right). reflexivity.
Qed.

Lemma nth_get_loc_map (f : string -> cell) (c : string) (l : list string) (d : cell) :
  In c l -> nth (get_loc c l) (map f l) d = f c.
Proof.
  induction l as [| x t IH]; simpl; intros H; [contradiction |].
  destruct (String.eqb_spec c x) as [-> | Hne]; [reflexivity |].
  destruct H as [-> | H]; [congruence | now apply IH].
Qed.

Lemma cell_at_getitem (cols sel : list string) (r : list cell) (c : string) :
  In c sel -> cell_at sel (map (cell_at cols r) sel) c = cell_at cols r c.
Proof. intros H. unfold cell_at at 1. now apply nth_get_loc_map. Qed.

Lemma flat_map_ext_in {A B : Type} (f g : A -> list B) (l : list A) :
  (forall a, In a l -> f a = g a) -> flat_map f l = flat_map g l.
Proof.
  induction l as [| a t IH]; simpl; intros H; [reflexivity |].
  rewrite (H a (or_introl eq_refl)), IH; [reflexivity |].
  intros b Hb. apply H. now right.
Qed.

(** The melt of the selected columns, read off the source frame. *)
Lemma melt_getitem (df : DataFrame) (id_vars value_vars : list string) :
  melt (getitem df (id_vars ++ value_vars)) id_vars value_vars =
  flat_map
    (fun v =>
       map (fun r =>
              {| m_ids := map (cell_at (columns df) r) id_vars;
                 m_variable := v;
                 m_value := cell_at (columns df) r v |})
           (rows df))
    value_vars.
Proof.
  unfold melt, getitem; simpl.
  apply flat_map_ext_in. intros v Hv.
  rewrite map_map. apply map_ext. intros r. f_equal.
  - apply map_ext_in. intros c Hc. apply cell_at_getitem.
    apply in_or_app. now left.
  - apply cell_at_getitem. apply in_or_app. now right.
Qed.

(** ** The model on the sample frames *)

Example year_cols_sample : year_cols edstats_sample = ["1970"; "1971"; "2015"].
Proof. reflexivity. Qed.

Example decimal_floatify_tokens :
  map decimal_floatify [".."; "1970"; "64.5"; "-1.5e-2"; "inf"; "NaN"; "n/a"; ""]
  = [None; Some (Finite (inject_Z 1970)); Some (Finite (645 # 10));
     Some (Finite (-15 # 1000)); Some (Inf false); Some NaN; None; None].
Proof. reflexivity. Qed.

Example load_sample_values :
  match load_edstats decimal_floatify (Ok edstats_sample) with
  | Ok data => map (fun r => (Year r, Value r, Missing r)) data
  | Raise _ => []
  end
  = [(1970, Finite (inject_Z 63), false); (1970, NaN, true);
     (1971, Finite (645 # 10), false); (1971, Finite (inject_Z 2200000), false);
     (2015, NaN, true); (2015, Finite (inject_Z 2880703), false)].
Proof. vm_compute. reflexivity. Qed.

(** With a parser that does not read 1971, the records of that column get
    a null Year and are dropped. *)
Example load_sample_dropped_year :
  match load_edstats picky_floatify (Ok edstats_sample) with
  | Ok data => map Year data
  | Raise _ => []
  end
  = [1970; 1970; 2015; 2015].
Proof. vm_compute. reflexivity. Qed.

Example first_run_sample :
  match script decimal_floatify (Ok edstats_sample) first_run with
  | Rendered p =>
      Some (map triple (chart_data (page_trend p)),
            non_missing_points (page_kpis p), missing_points (page_kpis p))
  | _ => None
  end
  = Some ([(CStr "Arab World",
            CStr "School enrollment, primary, female (% net)", 1970);
           (CStr "Arab World",
            CStr "School enrollment, primary, female (% net)", 1971);
           (CStr "Arab World",
            CStr "School enrollment, primary, female (% net)", 2015)],
          2, 44).
Proof. vm_compute. reflexivity. Qed.

(** ** The loader *)

Lemma year_cols_In (df : DataFrame) (c : string) :
  In c (year_cols df) <->
  In c (columns df) /\ fullmatch_d4 c = true /\ in_bound (py_int c) = true.
Proof.
  unfold year_cols, sorted_by_int. rewrite sorted_In, !filter_In. tauto.
Qed.

Lemma year_cols_length (df : DataFrame) :
  List.length (year_cols df) =
  List.length (filter (fun c => fullmatch_d4 c && in_bound (py_int c)) (columns df)).
Proof.
  unfold year_cols, sorted_by_int. rewrite sorted_length. f_equal.
  induction (columns df) as [| c t IH]; simpl; [reflexivity |].
  destruct (fullmatch_d4 c); simpl; [| assumption].
  destruct (in_bound (py_int c)); simpl; now rewrite IH.
Qed.

Lemma astype_Int64_int (z : Z) : astype_Int64 (Finite (inject_Z z)) = Ok (Some z).
Proof.
  unfold astype_Int64. rewrite Qfloor_Z, Qeq_bool_refl. reflexivity.
Qed.

Lemma astype_int_dropna (l : list (record (option Z))) (r : record Z) :
  In r (astype_int (dropna_Year l)) ->
  exists r', In r' l /\ Year r' = Some (Year r) /\ ids r' = ids r
             /\ Value r' = Value r /\ Missing r' = Missing r.
Proof.
  unfold astype_int, dropna_Year. rewrite in_flat_map.
  intros [r' [Hin Hr]]. apply filter_In in Hin. destruct Hin as [Hin _].
  exists r'. destruct (Year r') as [y |] eqn:E; simpl in Hr; [| contradiction].
  destruct Hr as [<- | []]. simpl. auto.
Qed.

Lemma astype_Int64_NaN : astype_Int64 NaN = Ok None.
Proof. reflexivity. Qed.

Lemma read_year_cols_In (floatify : string -> option float64) (df : DataFrame)
    (c : string) :
  In c (read_year_cols floatify df) <->
  In c (year_cols df) /\ year_read floatify c = true.
Proof. unfold read_year_cols. apply filter_In. Qed.

Lemma filter_block (p : string -> bool) (v : string)
    (mk : list cell -> melted) (rs : list (list cell)) :
  (forall r, m_variable (mk r) = v) ->
  filter (fun m => p (m_variable m)) (map mk rs) = if p v then map mk rs else [].
Proof.
  intros Hv. induction rs as [| r t IH]; cbn [map filter].
  - now destruct (p v).
  - rewrite Hv, IH. now destruct (p v).
Qed.

Lemma filter_melted (p : string -> bool) (df : DataFrame) (cols : list string) :
  filter (fun m => p (m_variable m))
    (flat_map
       (fun v =>
          map (fun r =>
                 {| m_ids := map (cell_at (columns df) r) required_cols;
                    m_variable := v;
                    m_value := cell_at (columns df) r v |})
              (rows df))
       cols)
  = flat_map
      (fun v =>
         map (fun r =>
                {| m_ids := map (cell_at (columns df) r) required_cols;
                   m_variable := v;
                   m_value := cell_at (columns df) r v |})
             (rows df))
      (filter p cols).
Proof.
  induction cols as [| v t IH]; [reflexivity |].
  cbn [flat_map filter]. rewrite filter_app, IH.
  rewrite (filter_block p v) by reflexivity.
  now destruct (p v).
Qed.

Section LoaderFacts.
Variable floatify : string -> option float64.
Hypothesis tokens : year_tokens floatify.

Lemma assign_Year_tokens (l : list melted) :
  (forall m, In m l -> fullmatch_d4 (m_variable m) = true) ->
  assign_Year floatify l
  = Ok (map (fun m => (m, read_year floatify (m_variable m))) l).
Proof.
  intros Hl. unfold assign_Year. apply mapM_ok. intros m Hm.
  unfold read_year, year_read. cbn [to_numeric_coerce].
  destruct (tokens _ (Hl m Hm)) as [E | E]; rewrite E.
  - now rewrite astype_Int64_int.
  - now rewrite astype_Int64_NaN.
Qed.

(** Value, Missing, dropna and the cast, once the years are known. *)
Lemma pipeline_tokens (l : list melted) :
  astype_int
    (dropna_Year
       (assign_Missing
          (assign_Value floatify
             (map (fun m => (m, read_year floatify (m_variable m))) l)))) =
  map (fun m => {| ids := m_ids m;
                   Year := py_int (m_variable m);
                   Value := to_numeric_coerce floatify (m_value m);
                   Missing := isna (to_numeric_coerce floatify (m_value m)) |})
      (filter (fun m => year_read floatify (m_variable m)) l).
Proof.
  induction l as [| m t IH]; [reflexivity |].
  unfold astype_int, dropna_Year, assign_Missing, assign_Value in *.
  unfold read_year in *. cbn [map filter Year fst snd].
  destruct (year_read floatify (m_variable m)) eqn:E.
  - cbn [flat_map Year ids Value Missing fst snd app map]. now rewrite IH.
  - exact IH.
Qed.

Lemma load_edstats_long_form (df : DataFrame) :
  missing_required df = [] ->
  load_edstats floatify (Ok df) = Ok (long_form floatify df).
Proof.
  intros Hreq. unfold load_edstats. cbn [bind]. rewrite Hreq.
  rewrite melt_getitem.
  rewrite assign_Year_tokens.
  - cbn [bind]. rewrite pipeline_tokens, filter_melted. f_equal.
    unfold long_form, read_year_cols.
    rewrite flat_map_concat_map, concat_map, map_map.
    rewrite <- flat_map_concat_map. apply flat_map_ext. intros c.
    rewrite map_map. reflexivity.
  - intros m Hm. apply in_flat_map in Hm. destruct Hm as [c [Hc Hm]].
    apply in_map_iff in Hm. destruct Hm as [r [<- _]]. simpl.
    now apply year_cols_In in Hc.
Qed.
End LoaderFacts.

(** ** The decimal parser on year tokens *)

Lemma take_digits_all (s : string) (acc n : Z) :
  all_digits s = true ->
  take_digits acc n s = (int_acc acc s, n + Z.of_nat (String.length s), "").
Proof.
  revert acc n. induction s as [| c t IH]; simpl; intros acc n H.
  - now rewrite Z.add_0_r.
  - apply andb_true_iff in H. destruct H as [Hc Ht]. rewrite Hc.
    rewrite IH by assumption. f_equal. f_equal. lia.
Qed.

Lemma is_digit_cases (c : ascii) :
  is_digit c = true ->
  In c ["0"; "1"; "2"; "3"; "4"; "5"; "6"; "7"; "8"; "9"]%char.
Proof.
  destruct c as [[] [] [] [] [] [] [] []]; intros H;
    try discriminate H; simpl; tauto.
Qed.

Lemma decimal_floatify_digits (c : ascii) (t : string) :
  is_digit c = true -> all_digits t = true ->
  decimal_floatify (String c t) = Some (Finite (inject_Z (py_int (String c t)))).
Proof.
  intros Hc Ht.
  assert (Hlen : (1 + Z.of_nat (String.length t) + 0 =? 0) = false)
    by (apply Z.eqb_neq; lia).
  apply is_digit_cases in Hc. simpl in Hc.
  repeat (destruct Hc as [<- | Hc]);
    try (unfold decimal_floatify, py_int; cbn -[Z.add Z.mul Z.of_nat Z.pow];
         rewrite (take_digits_all t _ _ Ht);
         cbn -[Z.add Z.mul Z.of_nat Z.pow];
         replace (0 + 1 + Z.of_nat (String.length t) + 0)
           with (1 + Z.of_nat (String.length t) + 0) by lia;
         rewrite Hlen; unfold scale10; cbn -[Z.add Z.mul Z.of_nat];
         now rewrite Z.mul_1_r).
  contradiction.
Qed.

Lemma decimal_floatify_year_tokens : year_tokens decimal_floatify.
Proof.
  intros s H. unfold fullmatch_d4 in H. apply andb_true_iff in H.
  destruct H as [Hlen Hall]. destruct s as [| c t]; [discriminate |].
  simpl in Hall. apply andb_true_iff in Hall. destruct Hall as [Hc Ht].
  left. now apply decimal_floatify_digits.
Qed.

Lemma picky_floatify_year_tokens : year_tokens picky_floatify.
Proof.
  intros s H. unfold picky_floatify.
  destruct (s =? "1971")%string; [now right |].
  now apply decimal_floatify_year_tokens.
Qed.

Lemma load_edstats_inv (floatify : string -> option float64)
    (csv : except DataFrame) (data : list (record Z)) :
  load_edstats floatify csv = Ok data ->
  exists df, csv = Ok df /\ missing_required df = [].
Proof.
  unfold load_edstats. destruct csv as [df | e]; cbn [bind]; [| discriminate].
  destruct (missing_required df) eqn:E; [| discriminate].
  intros _. exists df. split; [reflexivity | exact E].
Qed.

Lemma isna_NaN (f : float64) : isna f = true <-> f = NaN.
Proof. destruct f; simpl; split; congruence. Qed.

(** C1. In every record of the table [load_edstats] returns, [Missing] is
    true exactly when [Value] is null (NaN): no record has a number and
    [Missing = true], none has a null and [Missing = false].  This holds
    whatever the token parser is. *)
Theorem missing_iff_value_null (floatify : string -> option float64)
    (csv : except DataFrame) (data : list (record Z)) (r : record Z) :
  load_edstats floatify csv = Ok data ->
  In r data ->
  Missing r = isna (Value r) /\ (Missing r = true <-> Value r = NaN).
Proof.
  intros Hload Hin.
  assert (H : Missing r = isna (Value r)).
  { unfold load_edstats in Hload.
    destruct csv as [df | e]; cbn [bind] in Hload; [| discriminate].
    destruct (missing_required df); [| discriminate].
    destruct (assign_Year floatify _) as [l |]; cbn [bind] in Hload; [| discriminate].
    injection Hload as <-.
    apply astype_int_dropna in Hin.
    destruct Hin as [r' [Hin' [_ [_ [Hv Hm]]]]].
    unfold assign_Missing in Hin'. apply in_map_iff in Hin'.
    destruct Hin' as [myv [<- _]]. simpl in Hv, Hm. now rewrite <- Hm, Hv. }
  split; [exact H |]. rewrite H. apply isna_NaN.
Qed.

(** C2. No record of the canonical table has a year below 1970 or above
    2015, whatever year columns the source has; and a source whose year
    columns are 1968, 1969, 1970, 1971, 2015, 2016 keeps exactly 1970,
    1971 and 2015. *)
Theorem year_bound (floatify : string -> option float64) :
  year_tokens floatify ->
  (forall csv data r,
      load_edstats floatify csv = Ok data -> In r data ->
      1970 <= Year r <= 2015) /\
  (forall rows,
      year_cols {| columns := required_cols
                              ++ ["1968"; "1969"; "1970"; "1971"; "2015"; "2016"];
                   rows := rows |}
      = ["1970"; "1971"; "2015"]).
Proof.
  intros Hy. split.
  - intros csv data r Hload Hin.
    destruct (load_edstats_inv _ _ _ Hload) as [df [-> Hreq]].
    rewrite (load_edstats_long_form floatify Hy df Hreq) in Hload.
    injection Hload as <-.
    unfold long_form in Hin. apply in_flat_map in Hin.
    destruct Hin as [c [Hc Hr]]. apply in_map_iff in Hr.
    destruct Hr as [row [<- _]]. simpl.
    apply read_year_cols_In in Hc. destruct Hc as [Hc _].
    apply year_cols_In in Hc. destruct Hc as [_ [_ Hb]].
    unfold in_bound in Hb. apply andb_true_iff in Hb. lia.
  - intros rows. reflexivity.
Qed.

Lemma missing_iff_value_null_witness :
  let r := {| ids := [CStr "Arab World"; CStr "ARB";
                      CStr "School enrollment, primary, female (% net)";
                      CStr "SE.PRM.NENR.FE"];
              Year := 2015; Value := NaN; Missing := true |} in
  Missing r = isna (Value r) /\ (Missing r = true <-> Value r = NaN).
Proof.
  intros r.
  eapply (missing_iff_value_null decimal_floatify (Ok edstats_sample)).
  - vm_compute. reflexivity.
  - simpl. right. right. right. right. left. reflexivity.
Defined.

Lemma year_bound_witness :
  let r := {| ids := [CStr "Albania"; CStr "ALB"; CStr "Population, total";
                      CStr "SP.POP.TOTL"];
              Year := 2015; Value := Finite (inject_Z 2880703);
              Missing := false |} in
  year_tokens decimal_floatify /\ 1970 <= Year r <= 2015.
Proof.
  intros r. split; [exact decimal_floatify_year_tokens |].
  eapply (proj1 (year_bound decimal_floatify decimal_floatify_year_tokens)
                (Ok edstats_sample)).
  - vm_compute. reflexivity.
  - simpl. do 5 right. left. reflexivity.
Defined.

(** ** One record per source row and year column *)

Lemma is_digit_val (c : ascii) : is_digit c = true -> 0 <= digit_val c <= 9.
Proof.
  unfold is_digit, digit_val. intros H. apply andb_true_iff in H. lia.
Qed.

Lemma digit_val_inj (a b : ascii) : digit_val a = digit_val b -> a = b.
Proof.
  unfold digit_val. intros H.
  rewrite <- (ascii_N_embedding a), <- (ascii_N_embedding b).
  f_equal. lia.
Qed.

Lemma fullmatch_d4_inv (s : string) :
  fullmatch_d4 s = true ->
  exists a b c d,
    s = String a (String b (String c (String d ""))) /\
    is_digit a = true /\ is_digit b = true /\
    is_digit c = true /\ is_digit d = true.
Proof.
  unfold fullmatch_d4. intros H. apply andb_true_iff in H. destruct H as [Hl Ha].
  destruct s as [| a [| b [| c [| d [| e s]]]]]; try discriminate Hl.
  simpl in Ha. rewrite !andb_true_iff in Ha. exists a, b, c, d. tauto.
Qed.

Lemma py_int_inj (s s' : string) :
  fullmatch_d4 s = true -> fullmatch_d4 s' = true ->
  py_int s = py_int s' -> s = s'.
Proof.
  intros Hs Hs' Heq.
  destruct (fullmatch_d4_inv s Hs) as [a [b [c [d [-> [Ha [Hb [Hc Hd]]]]]]]].
  destruct (fullmatch_d4_inv s' Hs') as [a' [b' [c' [d' [-> [Ha' [Hb' [Hc' Hd']]]]]]]].
  unfold py_int in Heq. simpl in Heq.
  apply is_digit_val in Ha, Hb, Hc, Hd, Ha', Hb', Hc', Hd'.
  assert (digit_val a = digit_val a' /\ digit_val b = digit_val b' /\
          digit_val c = digit_val c' /\ digit_val d = digit_val d') as [Ea [Eb [Ec Ed]]]
    by lia.
  apply digit_val_inj in Ea, Eb, Ec, Ed. now subst.
Qed.

Lemma read_year_cols_NoDup (floatify : string -> option float64) (df : DataFrame) :
  NoDup (columns df) -> NoDup (map py_int (read_year_cols floatify df)).
Proof.
  intros H. apply Finite.Injective_map_NoDup_in.
  - intros x y Hx Hy. apply read_year_cols_In in Hx, Hy.
    destruct Hx as [Hx _], Hy as [Hy _]. apply year_cols_In in Hx, Hy.
    apply py_int_inj; tauto.
  - unfold read_year_cols, year_cols, sorted_by_int.
    apply NoDup_filter, sorted_NoDup. now do 2 apply NoDup_filter.
Qed.

Lemma filter_negb_length {A : Type} (p : A -> bool) (l : list A) :
  (List.length (filter p l) + List.length (filter (fun a => negb (p a)) l))%nat
  = List.length l.
Proof.
  induction l as [| a t IH]; [reflexivity |].
  cbn [filter]. destruct (p a); cbn [negb List.length]; lia.
Qed.

Lemma filter_all {A : Type} (p : A -> bool) (l : list A) :
  (forall a, In a l -> p a = true) -> filter p l = l.
Proof.
  induction l as [| a t IH]; intros H; [reflexivity |].
  cbn [filter]. rewrite (H a (or_introl eq_refl)). f_equal.
  apply IH. intros b Hb. apply H. now right.
Qed.

Lemma NoDup_flat_map_pairs {A B K : Type} (f : A -> Z) (k : B -> K)
    (la : list A) (lb : list B) :
  NoDup (map f la) -> NoDup (map k lb) ->
  NoDup (flat_map (fun a => map (fun b => (k b, f a)) lb) la).
Proof.
  intros Ha Hb. induction la as [| a t IH]; simpl.
  - constructor.
  - inversion Ha as [| ? ? Hnotin Ht]; subst.
    apply NoDup_app.
    + rewrite <- (map_map k (fun x => (x, f a))).
      apply Finite.Injective_map_NoDup; [| assumption].
      intros x y Hxy. now inversion Hxy.
    + now apply IH.
    + intros p Hp Hq. apply in_map_iff in Hp. destruct Hp as [b [<- _]].
      apply in_flat_map in Hq. destruct Hq as [a' [Ha' Hq]].
      apply in_map_iff in Hq. destruct Hq as [b' [Heq _]].
      injection Heq as _ Hf. apply Hnotin. rewrite <- Hf.
      now apply in_map.
Qed.

Lemma long_form_length (floatify : string -> option float64) (df : DataFrame) :
  List.length (long_form floatify df) =
  (List.length (rows df) * List.length (read_year_cols floatify df))%nat.
Proof.
  unfold long_form.
  induction (read_year_cols floatify df) as [| c t IH]; cbn [flat_map].
  - simpl. now rewrite Nat.mul_0_r.
  - rewrite length_app, length_map, IH. cbn [List.length]. lia.
Qed.

Lemma long_form_triples (floatify : string -> option float64) (df : DataFrame) :
  map triple (long_form floatify df) =
  flat_map (fun c => map (fun r => (row_key (columns df) r, py_int c)) (rows df))
           (read_year_cols floatify df).
Proof.
  unfold long_form.
  induction (read_year_cols floatify df) as [| c t IH]; cbn [flat_map].
  - reflexivity.
  - rewrite map_app, IH, map_map. reflexivity.
Qed.

(** C3, as the code has it.  The table has one record per source row and
    in-bound year column whose name is read as a year: its length is the
    number of source rows, rows without an identity field included, times
    the number of four-digit columns between 1970 and 2015, less the
    records dropped for a year that is not read (none when every year
    column is read).  When the column names are distinct and no two source
    rows share their (Country Name, Indicator Name), no two records share
    their (Country Name, Indicator Name, Year). *)
Theorem one_record_per_row_and_year (floatify : string -> option float64)
    (df : DataFrame) (data : list (record Z)) :
  year_tokens floatify ->
  load_edstats floatify (Ok df) = Ok data ->
  data = long_form floatify df /\
  List.length data
  = (List.length (rows df) * List.length (read_year_cols floatify df))%nat /\
  (List.length data
   + List.length (rows df)
     * List.length (filter (fun c => negb (year_read floatify c)) (year_cols df)))%nat
  = (List.length (rows df) * List.length (year_cols df))%nat /\
  List.length (year_cols df)
  = List.length (filter (fun c => fullmatch_d4 c && in_bound (py_int c)) (columns df)) /\
  ((forall c, In c (year_cols df) -> floatify c <> None) ->
   List.length data = (List.length (rows df) * List.length (year_cols df))%nat) /\
  (NoDup (columns df) ->
   NoDup (map (row_key (columns df)) (rows df)) ->
   NoDup (map triple data)).
Proof.
  intros Hy Hload.
  destruct (load_edstats_inv _ _ _ Hload) as [df' [Heq Hreq]].
  injection Heq as <-.
  rewrite (load_edstats_long_form floatify Hy df Hreq) in Hload.
  injection Hload as <-.
  split; [reflexivity |]. split; [apply long_form_length |].
  split; [| split; [apply year_cols_length | split]].
  - rewrite long_form_length. unfold read_year_cols.
    rewrite <- Nat.mul_add_distr_l. f_equal. apply filter_negb_length.
  - intros Hread. rewrite long_form_length. unfold read_year_cols.
    rewrite filter_all; [reflexivity |].
    intros c Hc. unfold year_read. specialize (Hread c Hc).
    now destruct (floatify c).
  - intros Hcols Hkeys. rewrite long_form_triples.
    apply NoDup_flat_map_pairs; [now apply read_year_cols_NoDup | assumption].
Qed.

Lemma one_record_per_row_and_year_witness :
  exists data,
    load_edstats picky_floatify (Ok edstats_sample) = Ok data /\
    data = long_form picky_floatify edstats_sample /\
    List.length data = 4%nat /\
    year_cols edstats_sample = ["1970"; "1971"; "2015"] /\
    read_year_cols picky_floatify edstats_sample = ["1970"; "2015"] /\
    NoDup (map triple data).
Proof.
  eexists. split; [vm_compute; reflexivity |].
  destruct (one_record_per_row_and_year picky_floatify edstats_sample _
              picky_floatify_year_tokens eq_refl) as [H1 [H2 [_ [_ [_ H3]]]]].
  split; [exact H1 |]. split; [exact H2 |].
  split; [reflexivity |]. split; [reflexivity |].
  apply H3.
  - unfold edstats_sample, required_cols; simpl.
    repeat (constructor; [simpl; intuition discriminate |]). constructor.
  - unfold edstats_sample, required_cols; simpl.
    repeat (constructor; [simpl; intuition discriminate |]). constructor.
Defined.

(** C3 as the spec states it fails twice.  A row without a Country Name is
    not a valid identity row, yet it is melted like any other, so the
    table is longer than valid rows times year columns; and two source
    rows with the same country and indicator give two records for one
    (Country Name, Indicator Name, Year). *)
Lemma one_record_per_triple_fails :
  (exists data,
      load_edstats decimal_floatify (Ok nameless_frame) = Ok data /\
      List.length data = 1%nat /\
      (List.length (valid_identity_rows nameless_frame)
       * List.length (year_cols nameless_frame))%nat = 0%nat) /\
  (exists data,
      load_edstats decimal_floatify (Ok repeated_frame) = Ok data /\
      ~ NoDup (map triple data)).
Proof.
  split.
  - eexists. split; [vm_compute; reflexivity |]. split; reflexivity.
  - eexists. split; [vm_compute; reflexivity |].
    intros H. inversion H as [| x l Hnotin _]; subst.
    apply Hnotin. left. reflexivity.
Qed.

(** ** Value coercion *)

Lemma long_form_In (floatify : string -> option float64) (df : DataFrame)
    (r : record Z) :
  In r (long_form floatify df) <->
  exists row c,
    In row (rows df) /\ In c (read_year_cols floatify df) /\
    r = {| ids := map (cell_at (columns df) row) required_cols;
           Year := py_int c;
           Value := to_numeric_coerce floatify (cell_at (columns df) row c);
           Missing := isna (to_numeric_coerce floatify (cell_at (columns df) row c)) |}.
Proof.
  unfold long_form. rewrite in_flat_map. split.
  - intros [c [Hc Hr]]. apply in_map_iff in Hr. destruct Hr as [row [<- Hrow]].
    exists row, c. auto.
  - intros [row [c [Hrow [Hc ->]]]]. exists c. split; [assumption |].
    apply in_map_iff. exists row. auto.
Qed.

(** C4. Whatever the cells of the year columns hold, the load returns a
    table (given the four identity columns).  For every source row and
    year column of the table, the record's Value is the cell itself when it
    is a number, the float the parser reads when the cell is a numeric
    token, and null with Missing = true for any other token; so it is for
    the two-character ".." once the parser rejects it. *)
Theorem value_coercion_never_raises (floatify : string -> option float64)
    (df : DataFrame) :
  year_tokens floatify ->
  missing_required df = [] ->
  load_edstats floatify (Ok df) = Ok (long_form floatify df) /\
  (forall row c,
      In row (rows df) -> In c (read_year_cols floatify df) ->
      exists r,
        In r (long_form floatify df) /\
        ids r = map (cell_at (columns df) row) required_cols /\
        Year r = py_int c /\
        match cell_at (columns df) row c with
        | CFloat f => Value r = f /\ Missing r = isna f
        | CStr s =>
            match floatify s with
            | Some f => Value r = f /\ Missing r = isna f
            | None => Value r = NaN /\ Missing r = true
            end
        end) /\
  (floatify ".." = None ->
   forall row c,
     In row (rows df) -> In c (read_year_cols floatify df) ->
     cell_at (columns df) row c = CStr ".." ->
     exists r,
       In r (long_form floatify df) /\
       ids r = map (cell_at (columns df) row) required_cols /\
       Year r = py_int c /\ Value r = NaN /\ Missing r = true).
Proof.
  intros Hy Hreq. split; [now apply load_edstats_long_form |].
  assert (Hcell : forall row c,
    In row (rows df) -> In c (read_year_cols floatify df) ->
    In {| ids := map (cell_at (columns df) row) required_cols;
          Year := py_int c;
          Value := to_numeric_coerce floatify (cell_at (columns df) row c);
          Missing := isna (to_numeric_coerce floatify (cell_at (columns df) row c)) |}
       (long_form floatify df)).
  { intros row c Hrow Hc. apply long_form_In. exists row, c. auto. }
  split.
  - intros row c Hrow Hc. eexists. split; [apply (Hcell row c Hrow Hc) |].
    cbn [ids Year Value Missing]. split; [reflexivity |]. split; [reflexivity |].
    destruct (cell_at (columns df) row c) as [f | s]; cbn [to_numeric_coerce].
    + auto.
    + destruct (floatify s); auto.
  - intros Hdots row c Hrow Hc Hx.
    eexists. split; [apply (Hcell row c Hrow Hc) |].
    cbn [ids Year Value Missing]. rewrite Hx. cbn [to_numeric_coerce].
    rewrite Hdots. auto.
Qed.

Lemma value_coercion_never_raises_witness :
  year_tokens decimal_floatify /\
  missing_required edstats_sample = [] /\
  decimal_floatify ".." = None /\
  load_edstats decimal_floatify (Ok edstats_sample)
  = Ok (long_form decimal_floatify edstats_sample) /\
  exists r,
    In r (long_form decimal_floatify edstats_sample) /\
    Year r = 2015 /\ Value r = NaN /\ Missing r = true.
Proof.
  split; [exact decimal_floatify_year_tokens |].
  split; [reflexivity |]. split; [reflexivity |].
  destruct (value_coercion_never_raises decimal_floatify edstats_sample
              decimal_floatify_year_tokens eq_refl) as [Hload [_ Hdots]].
  split; [exact Hload |].
  destruct (Hdots eq_refl (nth 0 (rows edstats_sample) []) "2015")
    as [r [Hin [_ [Hyear Hv]]]].
  - simpl. left. reflexivity.
  - vm_compute. right. right. left. reflexivity.
  - reflexivity.
  - exists r. split; [exact Hin |]. split; [exact Hyear | exact Hv].
Defined.

(** ** Missing identity columns *)

Lemma missing_required_In (df : DataFrame) (c : string) :
  In c (missing_required df) <-> In c required_cols /\ ~ In c (columns df).
Proof.
  unfold missing_required. rewrite filter_In, negb_true_iff, mem_false. tauto.
Qed.

(** C5. When one of the four identity columns is absent, [load_edstats]
    raises the error whose message lists the missing columns, exactly
    those of the four that the source lacks, and the script stops with
    that message instead of a page: no chart is built. *)
Theorem missing_columns_halt (floatify : string -> option float64)
    (df : DataFrame) :
  (exists c, In c required_cols /\ ~ In c (columns df)) ->
  load_edstats floatify (Ok df)
  = Raise (ValueError ("Missing columns in CSV: "
                       ++ repr_list (missing_required df))%string) /\
  (forall c, In c (missing_required df) <->
             In c required_cols /\ ~ In c (columns df)) /\
  (forall ui,
      script floatify (Ok df) ui
      = Stopped ("Could not load CSV from Google Drive. Details: "
                 ++ "Missing columns in CSV: "
                 ++ repr_list (missing_required df))%string).
Proof.
  intros [c Hc]. apply missing_required_In in Hc.
  assert (Hload : load_edstats floatify (Ok df)
                  = Raise (ValueError ("Missing columns in CSV: "
                                       ++ repr_list (missing_required df))%string)).
  { unfold load_edstats. cbn [bind].
    destruct (missing_required df); [contradiction | reflexivity]. }
  split; [exact Hload |]. split; [apply missing_required_In |].
  intros ui. unfold script. rewrite Hload. reflexivity.
Qed.

Lemma missing_columns_halt_witness :
  load_edstats decimal_floatify (Ok codeless_frame)
  = Raise (ValueError "Missing columns in CSV: ['Country Code', 'Indicator Code']") /\
  script decimal_floatify (Ok codeless_frame) first_run
  = Stopped "Could not load CSV from Google Drive. Details: Missing columns in CSV: ['Country Code', 'Indicator Code']".
Proof.
  destruct (missing_columns_halt decimal_floatify codeless_frame) as [H1 [_ H3]].
  - exists "Country Code". split.
    + simpl. tauto.
    + simpl. intuition discriminate.
  - split; [exact H1 | exact (H3 first_run)].
Defined.

(** ** The filter *)

Lemma cell_eq_Some (c : cell) (s : string) :
  cell_eq c (Some s) = true <-> c = CStr s.
Proof.
  destruct c as [f | t]; simpl.
  - split; discriminate.
  - rewrite String.eqb_eq. split; congruence.
Qed.

Lemma between_spec (y lo hi : Z) : between y lo hi = true <-> lo <= y <= hi.
Proof. unfold between. rewrite andb_true_iff, !Z.leb_le. tauto. Qed.

Lemma filter_idem {A : Type} (f : A -> bool) (l : list A) :
  filter f (filter f l) = filter f l.
Proof.
  induction l as [| a t IH]; simpl; [reflexivity |].
  destruct (f a) eqn:E; simpl; [rewrite E; now f_equal | assumption].
Qed.

(** C6. The filter keeps, in their order, exactly the records whose Country
    Name is the chosen country, whose Indicator Name is the chosen
    indicator (both as equal strings) and whose Year is between the two
    ends of the range, ends included.  It is a total function, and when
    nothing matches its result is the empty table. *)
Theorem filter_view_selects (data : list (record Z)) (country indicator : string)
    (year_min year_max : Z) :
  (exists keep,
      filter_view data (Some country) (Some indicator) year_min year_max
      = filter keep data /\
      forall r, keep r = true <->
                Country_Name r = CStr country /\
                Indicator_Name r = CStr indicator /\
                year_min <= Year r <= year_max) /\
  (forall r,
      In r (filter_view data (Some country) (Some indicator) year_min year_max) <->
      In r data /\ Country_Name r = CStr country /\
      Indicator_Name r = CStr indicator /\ year_min <= Year r <= year_max) /\
  ((forall r, In r data ->
              ~ (Country_Name r = CStr country /\
                 Indicator_Name r = CStr indicator /\
                 year_min <= Year r <= year_max)) ->
   filter_view data (Some country) (Some indicator) year_min year_max = []).
Proof.
  assert (Hkeep : forall r : record Z,
    cell_eq (Country_Name r) (Some country)
    && cell_eq (Indicator_Name r) (Some indicator)
    && between (Year r) year_min year_max = true <->
    Country_Name r = CStr country /\ Indicator_Name r = CStr indicator /\
    year_min <= Year r <= year_max).
  { intros r. rewrite !andb_true_iff, !cell_eq_Some, between_spec. tauto. }
  split; [| split].
  - eexists. split; [reflexivity | exact Hkeep].
  - intros r. unfold filter_view. rewrite filter_In, Hkeep. tauto.
  - intros Hnone. unfold filter_view.
    induction data as [| r t IH]; simpl; [reflexivity |].
    destruct (cell_eq (Country_Name r) (Some country)
              && cell_eq (Indicator_Name r) (Some indicator)
              && between (Year r) year_min year_max) eqn:E.
    + exfalso. apply (Hnone r (or_introl eq_refl)). now apply Hkeep.
    + apply IH. intros r' Hr'. apply Hnone. now right.
Qed.

(** C7. Filtering a filtered view again by the same country, indicator and
    year range gives the same view. *)
Theorem filter_view_idempotent (data : list (record Z))
    (country indicator : option string) (year_min year_max : Z) :
  filter_view (filter_view data country indicator year_min year_max)
              country indicator year_min year_max
  = filter_view data country indicator year_min year_max.
Proof. unfold filter_view. apply filter_idem. Qed.

(** ** Default selections *)

Lemma ascii_compare_N (a b : ascii) :
  Ascii.compare a b = N.compare (N_of_ascii a) (N_of_ascii b).
Proof. reflexivity. Qed.

Lemma string_compare_trans_le (s1 s2 s3 : string) :
  String.compare s1 s2 <> Gt -> String.compare s2 s3 <> Gt ->
  String.compare s1 s3 <> Gt.
Proof.
  revert s2 s3. induction s1 as [| a s1 IH]; intros [| b s2] [| c s3]; simpl;
    try congruence.
  rewrite !ascii_compare_N.
  destruct (N.compare_spec (N_of_ascii a) (N_of_ascii b)) as [Eab | Lab | Gab];
    destruct (N.compare_spec (N_of_ascii b) (N_of_ascii c)) as [Ebc | Lbc | Gbc];
    destruct (N.compare_spec (N_of_ascii a) (N_of_ascii c)) as [Eac | Lac | Gac];
    try congruence; try lia.
  apply IH.
Qed.

Lemma string_leb_trans (x y z : string) :
  String.leb x y = true -> String.leb y z = true -> String.leb x z = true.
Proof.
  unfold String.leb. intros Hxy Hyz.
  assert (H := string_compare_trans_le x y z).
  destruct (String.compare x y), (String.compare y z), (String.compare x z);
    try reflexivity; try discriminate; exfalso; apply H; congruence.
Qed.

Lemma unique_In (l : list string) (x : string) : In x (unique l) <-> In x l.
Proof.
  induction l as [| y t IH]; simpl; [tauto |].
  rewrite filter_In, IH, negb_true_iff, String.eqb_neq.
  destruct (string_dec y x); intuition congruence.
Qed.

Lemma unique_NoDup (l : list string) : NoDup (unique l).
Proof.
  induction l as [| y t IH]; simpl; constructor.
  - rewrite filter_In, negb_true_iff, String.eqb_neq. tauto.
  - now apply NoDup_filter.
Qed.

Lemma dropna_str_In (l : list cell) (s : string) :
  In s (dropna_str l) <-> In (CStr s) l.
Proof.
  unfold dropna_str. rewrite in_flat_map. split.
  - intros [c [Hc Hs]]. destruct c as [f | t]; simpl in Hs; [contradiction |].
    destruct Hs as [<- | []]. assumption.
  - intros H. exists (CStr s). simpl. auto.
Qed.

Lemma list_index_nth (x : string) (l : list string) :
  In x l -> exists i, list_index x l = Ok i /\ nth_error l i = Some x.
Proof.
  induction l as [| y t IH]; simpl; intros H; [contradiction |].
  destruct (String.eqb_spec y x) as [-> | Hne].
  - exists O. auto.
  - destruct H as [-> | H]; [congruence |].
    destruct (IH H) as [i [Hi Hn]]. exists (S i). rewrite Hi. auto.
Qed.

Lemma indicator_box_default (inds : list string) :
  indicator_box inds None =
  Ok match default_indicator inds with
     | Some c => Some c
     | None => hd_error inds
     end.
Proof.
  unfold indicator_box, indicator_index.
  destruct (default_indicator inds) as [d |] eqn:E.
  - unfold default_indicator in E. apply find_some in E. destruct E as [_ Hm].
    rewrite Hm. apply mem_In in Hm.
    destruct (list_index_nth d inds Hm) as [i [Hi Hn]].
    rewrite Hi. cbn [bind selectbox]. now rewrite Hn.
  - cbn [bind selectbox]. now rewrite nth_error_0.
Qed.

Lemma ind_for_country_In (data : list (record Z)) (country i : string) :
  In i (ind_for_country data (Some country)) <->
  exists r, In r data /\ Country_Name r = CStr country /\ Indicator_Name r = CStr i.
Proof.
  unfold ind_for_country.
  rewrite sorted_In, unique_In, dropna_str_In, in_map_iff. split.
  - intros [r [Hi Hr]]. apply filter_In in Hr. destruct Hr as [Hr Hc].
    apply cell_eq_Some in Hc. eauto.
  - intros [r [Hr [Hc Hi]]]. exists r. split; [assumption |].
    apply filter_In. split; [assumption | now apply cell_eq_Some].
Qed.

Lemma countries_In (data : list (record Z)) (c : string) :
  In c (countries data) <-> exists r, In r data /\ Country_Name r = CStr c.
Proof.
  unfold countries. rewrite sorted_In, unique_In, dropna_str_In, in_map_iff.
  split; intros [r H]; exists r; tauto.
Qed.

(** C8. On a first run the indicator box shows the first of the three
    preferred names, in their order, that occurs among the chosen country's
    indicators, and the first entry of that sorted list when none of the
    three occurs; the country box shows "Arab World" when the table has
    it, else the first country in sorted order.  The two lists are sorted,
    without repeats, and hold the names found in the table. *)
Theorem default_selection (data : list (record Z)) (country : string) :
  let inds := ind_for_country data (Some country) in
  let cs := countries data in
  let gross := "School enrollment, primary, female (% gross)" in
  let net := "School enrollment, primary, female (% net)" in
  let adjusted := "Adjusted net enrolment rate, primary, female (%)" in
  (In gross inds -> indicator_box inds None = Ok (Some gross)) /\
  (~ In gross inds -> In net inds -> indicator_box inds None = Ok (Some net)) /\
  (~ In gross inds -> ~ In net inds -> In adjusted inds ->
   indicator_box inds None = Ok (Some adjusted)) /\
  (~ In gross inds -> ~ In net inds -> ~ In adjusted inds ->
   indicator_box inds None = Ok (hd_error inds)) /\
  (In "Arab World" cs -> country_box cs None = Ok (Some "Arab World")) /\
  (~ In "Arab World" cs ->
   forall c rest, cs = c :: rest -> country_box cs None = Ok (Some c)) /\
  StronglySorted (fun a b => String.leb a b = true) inds /\ NoDup inds /\
  (forall i, In i inds <->
             exists r, In r data /\ Country_Name r = CStr country
                       /\ Indicator_Name r = CStr i) /\
  StronglySorted (fun a b => String.leb a b = true) cs /\ NoDup cs /\
  (forall c, In c cs <-> exists r, In r data /\ Country_Name r = CStr c).
Proof.
  intros inds cs gross net adjusted.
  assert (Hbox := indicator_box_default inds).
  unfold default_indicator, candidates in Hbox. cbn [find] in Hbox.
  fold gross net adjusted in Hbox.
  repeat split.
  - intros H1. apply mem_In in H1. now rewrite H1 in Hbox.
  - intros H1 H2. apply mem_false in H1. apply mem_In in H2.
    now rewrite H1, H2 in Hbox.
  - intros H1 H2 H3. apply mem_false in H1, H2. apply mem_In in H3.
    now rewrite H1, H2, H3 in Hbox.
  - intros H1 H2 H3. apply mem_false in H1, H2, H3.
    now rewrite H1, H2, H3 in Hbox.
  - intros Ha. unfold country_box, default_country.
    rewrite (proj2 (mem_In _ _) Ha). cbn [bind].
    destruct (list_index_nth _ _ Ha) as [i [Hi Hn]].
    rewrite Hi. cbn [bind selectbox]. now rewrite Hn.
  - intros Ha c rest Hcs. unfold country_box, default_country.
    rewrite (proj2 (mem_false _ _) Ha), Hcs. cbn [first_item bind list_index].
    rewrite String.eqb_refl. reflexivity.
  - apply sorted_sorted; [apply String.leb_total | apply string_leb_trans].
  - apply sorted_NoDup, unique_NoDup.
  - apply ind_for_country_In.
  - apply ind_for_country_In.
  - apply sorted_sorted; [apply String.leb_total | apply string_leb_trans].
  - apply sorted_NoDup, unique_NoDup.
  - apply countries_In.
  - apply countries_In.
Qed.

(** ** KPIs *)

(** C9. For a year range the slider can return, the tiles show
    [year_max - year_min + 1] selected years and that number less the
    non-missing count as missing points, and both percentages are computed:
    the divisor is at least 1, so neither division is by zero. *)
Theorem kpi_row_defined (df : list (record Z)) (year_min year_max : Z) :
  slider_range year_min year_max ->
  1 <= total_years year_min year_max <= 46 /\
  kpi_row df year_min year_max
  = Ok {| selected_years := (year_min, year_max);
          selected_delta := year_max - year_min + 1;
          non_missing_points := non_missing df;
          coverage_pct :=
            (inject_Z (non_missing df) / inject_Z (year_max - year_min + 1) * 100)%Q;
          missing_points := (year_max - year_min + 1) - non_missing df;
          missing_pct :=
            (inject_Z ((year_max - year_min + 1) - non_missing df)
             / inject_Z (year_max - year_min + 1) * 100)%Q |} /\
  non_missing df + ((year_max - year_min + 1) - non_missing df)
  = year_max - year_min + 1.
Proof.
  unfold slider_range, total_years. intros [Hlo [Hle Hhi]].
  split; [lia |]. split; [| lia].
  unfold kpi_row, truediv, total_years.
  assert (E : (year_max - year_min + 1 =? 0) = false) by (apply Z.eqb_neq; lia).
  rewrite E. reflexivity.
Qed.

Lemma kpi_row_defined_witness :
  slider_range 1970 2015 /\
  kpi_row (filter_view (long_form decimal_floatify edstats_sample)
                       (Some "Arab World")
                       (Some "School enrollment, primary, female (% net)")
                       1970 2015)
          1970 2015
  = Ok {| selected_years := (1970, 2015);
          selected_delta := 46;
          non_missing_points := 2;
          coverage_pct := (inject_Z 2 / inject_Z 46 * 100)%Q;
          missing_points := 44;
          missing_pct := (inject_Z 44 / inject_Z 46 * 100)%Q |}.
Proof.
  assert (H : slider_range 1970 2015) by (unfold slider_range; lia).
  split; [exact H |].
  exact (proj1 (proj2 (kpi_row_defined
                         (filter_view (long_form decimal_floatify edstats_sample)
                                      (Some "Arab World")
                                      (Some "School enrollment, primary, female (% net)")
                                      1970 2015)
                         1970 2015 H))).
Defined.

(** The guard is the slider: a reversed range one year apart, which the
    slider never returns, would divide by zero. *)
Lemma kpi_row_reversed_range (df : list (record Z)) :
  kpi_row df 1971 1970 = Raise (ZeroDivisionError "division by zero").
Proof. reflexivity. Qed.

(** ** The missing-rate view *)




(** * Further properties of the script *)

(** ** The loader: errors, order, provenance *)

Lemma load_edstats_missing (floatify : string -> option float64) (df : DataFrame) :
  missing_required df <> [] ->
  load_edstats floatify (Ok df)
  = Raise (ValueError ("Missing columns in CSV: "
                       ++ repr_list (missing_required df))%string).
Proof.
  intros H. unfold load_edstats. cbn [bind].
  destruct (missing_required df); [congruence | reflexivity].
Qed.

(** X1. The loader raises in two cases only: the source could not be read,
    and the error is the reader's own; or a required column is missing, and
    the error is the ValueError that lists the missing columns.  In every
    other case it returns a table. *)
Theorem load_edstats_error_cases (floatify : string -> option float64)
    (csv : except DataFrame) (e : exn) :
  year_tokens floatify ->
  (load_edstats floatify csv = Raise e <->
   csv = Raise e \/
   exists df, csv = Ok df /\ missing_required df <> [] /\
              e = ValueError ("Missing columns in CSV: "
                              ++ repr_list (missing_required df))%string).
Proof.
  intros Hy. destruct csv as [df | e0].
  - destruct (missing_required df) as [| c t] eqn:E.
    + rewrite (load_edstats_long_form floatify Hy df E). split.
      * discriminate.
      * intros [H | [df' [H [Hm _]]]]; [discriminate |].
        injection H as <-. congruence.
    + assert (Hne : missing_required df <> []) by (rewrite E; discriminate).
      rewrite (load_edstats_missing floatify df Hne). rewrite E. split.
      * intros H. injection H as <-. right. exists df.
        split; [reflexivity |]. split; [exact Hne | now rewrite E].
      * intros [H | [df' [H [_ He]]]]; [discriminate |].
        injection H as <-. rewrite E in He. now subst.
  - unfold load_edstats. cbn [bind]. split.
    + intros H. injection H as ->. now left.
    + intros [H | [df [H _]]]; [now injection H as -> | discriminate].
Qed.

Lemma load_edstats_error_cases_witness :
  load_edstats decimal_floatify (Raise (IOError "HTTP Error 404: Not Found"))
  = Raise (IOError "HTTP Error 404: Not Found").
Proof.
  apply (proj2 (load_edstats_error_cases decimal_floatify _ _
                  decimal_floatify_year_tokens)).
  left. reflexivity.
Defined.

Lemma StronglySorted_filter {A : Type} (R : A -> A -> Prop) (p : A -> bool)
    (l : list A) :
  StronglySorted R l -> StronglySorted R (filter p l).
Proof.
  induction 1 as [| a t Hs IH Hall]; cbn [filter]; [constructor |].
  destruct (p a); [| assumption].
  constructor; [assumption |].
  rewrite Forall_forall in *. intros x Hx. apply filter_In in Hx. now apply Hall.
Qed.

Lemma year_cols_sorted (df : DataFrame) :
  StronglySorted (fun a b => py_int a <= py_int b) (year_cols df).
Proof.
  unfold year_cols, sorted_by_int.
  set (l := filter _ (filter _ _)).
  assert (H : StronglySorted (fun a b => (py_int a <=? py_int b) = true)
                (sorted (fun x y => py_int x <=? py_int y) l)).
  { apply sorted_sorted.
    - intros x y. rewrite !Z.leb_le. lia.
    - intros x y z. rewrite !Z.leb_le. lia. }
  induction H as [| a t Hs IH Hall]; constructor; [assumption |].
  eapply Forall_impl; [| exact Hall]. intros b Hb. now apply Z.leb_le.
Qed.

Lemma block_sorted {A : Type} (y : Z) (l : list A) (rest : list Z) :
  StronglySorted Z.le rest -> Forall (Z.le y) rest ->
  StronglySorted Z.le (map (fun _ => y) l ++ rest).
Proof.
  intros Hs Hall. induction l as [| a t IH]; cbn [map app]; [assumption |].
  constructor; [assumption |].
  rewrite Forall_forall in *. intros x Hx. apply in_app_or in Hx.
  destruct Hx as [Hx | Hx]; [| now apply Hall].
  apply in_map_iff in Hx. destruct Hx as [_ [<- _]]. lia.
Qed.

Lemma long_form_years_sorted (floatify : string -> option float64) (df : DataFrame) :
  StronglySorted Z.le (map Year (long_form floatify df)).
Proof.
  unfold long_form.
  assert (H : StronglySorted (fun a b => py_int a <= py_int b)
                (read_year_cols floatify df))
    by apply StronglySorted_filter, year_cols_sorted.
  induction H as [| c t Hs IH Hall]; cbn [flat_map map]; [constructor |].
  rewrite map_app, map_map. cbn [Year].
  apply block_sorted; [exact IH |].
  rewrite Forall_forall in *. intros y Hy. apply in_map_iff in Hy.
  destruct Hy as [r [<- Hr]]. apply in_flat_map in Hr.
  destruct Hr as [c' [Hc' Hr]]. apply in_map_iff in Hr.
  destruct Hr as [row [<- _]]. cbn [Year]. now apply Hall.
Qed.

(** X2. The year columns come out in chronological order whatever their
    order in the source, and so do the records: the Year column of the
    canonical table never decreases. *)
Theorem canonical_table_chronological (floatify : string -> option float64)
    (df : DataFrame) (data : list (record Z)) :
  year_tokens floatify ->
  load_edstats floatify (Ok df) = Ok data ->
  StronglySorted (fun a b => py_int a <= py_int b) (year_cols df) /\
  StronglySorted Z.le (map Year data).
Proof.
  intros Hy Hload. split; [apply year_cols_sorted |].
  destruct (load_edstats_inv _ _ _ Hload) as [df' [Heq Hreq]].
  injection Heq as <-.
  rewrite (load_edstats_long_form floatify Hy df Hreq) in Hload.
  injection Hload as <-. apply long_form_years_sorted.
Qed.

Lemma canonical_table_chronological_witness :
  year_cols edstats_sample = ["1970"; "1971"; "2015"] /\
  StronglySorted Z.le [1970; 1970; 1971; 1971; 2015; 2015].
Proof.
  destruct (canonical_table_chronological decimal_floatify edstats_sample _
              decimal_floatify_year_tokens eq_refl) as [_ H].
  split; [reflexivity | exact H].
Defined.

Lemma sorted_of_sorted {A : Type} (le : A -> A -> bool) (l : list A) :
  StronglySorted (fun a b => le a b = true) l -> sorted le l = l.
Proof.
  induction 1 as [| a t Hs IH Hall]; [reflexivity |].
  cbn [sorted fold_right]. fold (sorted le t). rewrite IH.
  destruct t as [| b t']; [reflexivity |].
  cbn [insort]. inversion Hall as [| ? ? Hab _]; subst. now rewrite Hab.
Qed.

Lemma year_cols_of_selection (df : DataFrame) :
  year_cols (getitem df (required_cols ++ year_cols df)) = year_cols df.
Proof.
  unfold year_cols at 1. cbn [getitem columns].
  rewrite filter_app. cbn [required_cols filter app].
  replace (filter fullmatch_d4 required_cols) with (@nil string) by reflexivity.
  cbn [app].
  rewrite (filter_all fullmatch_d4)
    by (intros c Hc; now apply year_cols_In in Hc).
  rewrite (filter_all (fun c => in_bound (py_int c)))
    by (intros c Hc; now apply year_cols_In in Hc).
  unfold sorted_by_int. apply sorted_of_sorted.
  assert (H := year_cols_sorted df).
  induction H as [| a t Hs IH Hall]; constructor; [assumption |].
  eapply Forall_impl; [| exact Hall]. intros b Hb. now apply Z.leb_le.
Qed.

Lemma long_form_of_selection (floatify : string -> option float64) (df : DataFrame) :
  long_form floatify (getitem df (required_cols ++ year_cols df))
  = long_form floatify df.
Proof.
  unfold long_form, read_year_cols. rewrite year_cols_of_selection.
  apply flat_map_ext_in. intros c Hc. apply filter_In in Hc. destruct Hc as [Hc _].
  cbn [getitem rows columns]. rewrite map_map. apply map_ext. intros r.
  assert (Hcell : cell_at (required_cols ++ year_cols df)
                    (map (cell_at (columns df) r) (required_cols ++ year_cols df)) c
                  = cell_at (columns df) r c)
    by (apply cell_at_getitem, in_or_app; now right).
  rewrite Hcell. f_equal.
Qed.

(** X3. Only the four identity columns and the in-bound year columns take
    part in the load: cutting the source down to them beforehand gives the
    same canonical table, so no other column (an out-of-bound year, a
    stray column) leaves any trace. *)
Theorem load_edstats_ignores_other_columns (floatify : string -> option float64)
    (df : DataFrame) :
  year_tokens floatify ->
  missing_required df = [] ->
  load_edstats floatify (Ok (getitem df (required_cols ++ year_cols df)))
  = load_edstats floatify (Ok df).
Proof.
  intros Hy Hreq.
  rewrite (load_edstats_long_form floatify Hy df Hreq).
  rewrite (load_edstats_long_form floatify Hy); [| reflexivity].
  now rewrite long_form_of_selection.
Qed.

Lemma load_edstats_ignores_other_columns_witness :
  load_edstats decimal_floatify
    (Ok {| columns := required_cols ++ ["1970"; "1971"; "2015"];
           rows :=
             [ [CStr "Arab World"; CStr "ARB";
                CStr "School enrollment, primary, female (% net)";
                CStr "SE.PRM.NENR.FE"; num 63; CStr "64.5"; CStr ".."];
               [CStr "Albania"; CStr "ALB";
                CStr "Population, total"; CStr "SP.POP.TOTL";
                CFloat NaN; CStr "2.2e6"; num 2880703] ] |})
  = load_edstats decimal_floatify (Ok edstats_sample).
Proof.
  exact (load_edstats_ignores_other_columns decimal_floatify edstats_sample
           decimal_floatify_year_tokens eq_refl).
Defined.

(** X4. Nothing in the canonical table is invented: every record carries
    the four identity cells of one source row, the year of one four-digit
    column of the source that lies between 1970 and 2015 and is read by the
    parser, and as Value the coercion of that row's cell in that column. *)
Theorem canonical_record_origin (floatify : string -> option float64)
    (df : DataFrame) (data : list (record Z)) (r : record Z) :
  year_tokens floatify ->
  load_edstats floatify (Ok df) = Ok data ->
  In r data ->
  exists row c,
    In row (rows df) /\ In c (columns df) /\
    fullmatch_d4 c = true /\ 1970 <= py_int c <= 2015 /\ floatify c <> None /\
    ids r = [cell_at (columns df) row "Country Name";
             cell_at (columns df) row "Country Code";
             cell_at (columns df) row "Indicator Name";
             cell_at (columns df) row "Indicator Code"] /\
    Year r = py_int c /\
    Value r = to_numeric_coerce floatify (cell_at (columns df) row c).
Proof.
  intros Hy Hload Hin.
  destruct (load_edstats_inv _ _ _ Hload) as [df' [Heq Hreq]].
  injection Heq as <-.
  rewrite (load_edstats_long_form floatify Hy df Hreq) in Hload.
  injection Hload as <-.
  apply long_form_In in Hin. destruct Hin as [row [c [Hrow [Hc ->]]]].
  apply read_year_cols_In in Hc. destruct Hc as [Hc Hread].
  apply year_cols_In in Hc. destruct Hc as [Hcol [Hfour Hbound]].
  exists row, c. cbn [ids Year Value].
  repeat split; try assumption; try reflexivity.
  - unfold in_bound in Hbound. apply andb_true_iff in Hbound. lia.
  - unfold in_bound in Hbound. apply andb_true_iff in Hbound. lia.
  - unfold year_read in Hread. destruct (floatify c); congruence.
Qed.

Lemma canonical_record_origin_witness :
  exists row c,
    In row (rows edstats_sample) /\ In c (columns edstats_sample) /\
    fullmatch_d4 c = true /\ 1970 <= py_int c <= 2015 /\
    decimal_floatify c <> None /\
    [CStr "Albania"; CStr "ALB"; CStr "Population, total"; CStr "SP.POP.TOTL"]
    = [cell_at (columns edstats_sample) row "Country Name";
       cell_at (columns edstats_sample) row "Country Code";
       cell_at (columns edstats_sample) row "Indicator Name";
       cell_at (columns edstats_sample) row "Indicator Code"] /\
    1971 = py_int c /\
    Finite (inject_Z 2200000)
    = to_numeric_coerce decimal_floatify (cell_at (columns edstats_sample) row c).
Proof.
  eapply (canonical_record_origin decimal_floatify edstats_sample _
            {| ids := [CStr "Albania"; CStr "ALB"; CStr "Population, total";
                       CStr "SP.POP.TOTL"];
               Year := 1971; Value := Finite (inject_Z 2200000);
               Missing := false |}
            decimal_floatify_year_tokens).
  - vm_compute. reflexivity.
  - simpl. do 3 right. left. reflexivity.
Defined.

(** ** From the loaded table to the sidebar *)

Lemma long_form_nil (floatify : string -> option float64) (df : DataFrame) :
  rows df = [] \/ read_year_cols floatify df = [] -> long_form floatify df = [].
Proof.
  unfold long_form. intros [H | H]; rewrite H; [| reflexivity].
  induction (read_year_cols floatify df) as [| c t IH]; [reflexivity | exact IH].
Qed.

(** X5. As soon as one in-bound year column is read, the country list of
    the sidebar holds exactly the Country Names that occur as text in the
    source rows, and the indicator list of a country exactly the Indicator
    Names of the source rows of that country. *)
Theorem sidebar_lists_of_source (floatify : string -> option float64)
    (df : DataFrame) (data : list (record Z)) :
  year_tokens floatify ->
  load_edstats floatify (Ok df) = Ok data ->
  read_year_cols floatify df <> [] ->
  (forall c, In c (countries data) <->
             exists row, In row (rows df) /\
                         cell_at (columns df) row "Country Name" = CStr c) /\
  (forall c i, In i (ind_for_country data (Some c)) <->
               exists row, In row (rows df) /\
                           cell_at (columns df) row "Country Name" = CStr c /\
                           cell_at (columns df) row "Indicator Name" = CStr i).
Proof.
  intros Hy Hload Hcols.
  destruct (load_edstats_inv _ _ _ Hload) as [df' [Heq Hreq]].
  injection Heq as <-.
  rewrite (load_edstats_long_form floatify Hy df Hreq) in Hload.
  injection Hload as <-.
  destruct (read_year_cols floatify df) as [| c0 t] eqn:E; [congruence |].
  assert (Hc0 : In c0 (read_year_cols floatify df)) by (rewrite E; now left).
  split.
  - intros c. rewrite countries_In. split.
    + intros [r [Hr Hn]]. apply long_form_In in Hr.
      destruct Hr as [row [k [Hrow [_ ->]]]]. exists row. auto.
    + intros [row [Hrow Hn]]. eexists. split.
      * apply long_form_In. exists row, c0. auto.
      * exact Hn.
  - intros c i. rewrite ind_for_country_In. split.
    + intros [r [Hr [Hn Hi]]]. apply long_form_In in Hr.
      destruct Hr as [row [k [Hrow [_ ->]]]]. exists row. auto.
    + intros [row [Hrow [Hn Hi]]]. eexists. split.
      * apply long_form_In. exists row, c0. auto.
      * split; [exact Hn | exact Hi].
Qed.

Lemma sidebar_lists_of_source_witness :
  (forall c, In c ["Albania"; "Arab World"] <->
             exists row, In row (rows edstats_sample) /\
                         cell_at (columns edstats_sample) row "Country Name" = CStr c) /\
  (forall c i,
      In i (ind_for_country (long_form decimal_floatify edstats_sample) (Some c)) <->
      exists row, In row (rows edstats_sample) /\
                  cell_at (columns edstats_sample) row "Country Name" = CStr c /\
                  cell_at (columns edstats_sample) row "Indicator Name" = CStr i).
Proof.
  apply (sidebar_lists_of_source decimal_floatify edstats_sample
           (long_form decimal_floatify edstats_sample)
           decimal_floatify_year_tokens).
  - vm_compute. reflexivity.
  - vm_compute. discriminate.
Defined.

Lemma render_no_country (data : list (record Z)) (ui : session) :
  countries data = [] ->
  render data ui = Raise (IndexError "list index out of range").
Proof. intros H. unfold render, country_box. rewrite H. reflexivity. Qed.

(** X6. A source that has the four identity columns but no row, or no
    in-bound year column that is read, loads as an empty table, and the
    script then fails on [countries[0]]: the IndexError is raised after
    the try block, so it is not turned into the error message. *)
Theorem empty_table_uncaught (floatify : string -> option float64)
    (df : DataFrame) (ui : session) :
  year_tokens floatify ->
  missing_required df = [] ->
  rows df = [] \/ read_year_cols floatify df = [] ->
  load_edstats floatify (Ok df) = Ok [] /\
  script floatify (Ok df) ui = Uncaught (IndexError "list index out of range").
Proof.
  intros Hy Hreq Hempty.
  assert (Hload : load_edstats floatify (Ok df) = Ok []).
  { rewrite (load_edstats_long_form floatify Hy df Hreq).
    now rewrite long_form_nil. }
  split; [exact Hload |].
  unfold script. rewrite Hload. now rewrite render_no_country.
Qed.

Lemma empty_table_uncaught_witness :
  load_edstats decimal_floatify
    (Ok {| columns := required_cols ++ ["1968"; "2016"; "Unnamed: 6"];
           rows := [ [CStr "Arab World"; CStr "ARB"; CStr "Population, total";
                      CStr "SP.POP.TOTL"; num 1; num 2; CFloat NaN] ] |})
  = Ok [] /\
  script decimal_floatify
    (Ok {| columns := required_cols ++ ["1968"; "2016"; "Unnamed: 6"];
           rows := [ [CStr "Arab World"; CStr "ARB"; CStr "Population, total";
                      CStr "SP.POP.TOTL"; num 1; num 2; CFloat NaN] ] |})
    first_run
  = Uncaught (IndexError "list index out of range").
Proof.
  apply (empty_table_uncaught decimal_floatify _ first_run
           decimal_floatify_year_tokens).
  - reflexivity.
  - right. reflexivity.
Defined.

Lemma country_box_ok (cs : list string) (picked : option nat) :
  cs <> [] -> exists c, country_box cs picked = Ok (Some c) /\ In c cs.
Proof.
  intros Hne. unfold country_box.
  assert (Hd : exists d, default_country cs = Ok d /\ In d cs).
  { unfold default_country. destruct (mem "Arab World" cs) eqn:E.
    - exists "Arab World". split; [reflexivity | now apply mem_In].
    - destruct cs as [| c t]; [congruence |]. exists c. split; [reflexivity | now left]. }
  destruct Hd as [d [Hd Hin]]. rewrite Hd. cbn [bind].
  destruct (list_index_nth d cs Hin) as [i [Hi Hn]]. rewrite Hi. cbn [bind].
  unfold selectbox. destruct picked as [j |].
  - destruct (nth_error cs j) as [v |] eqn:Ej.
    + exists v. split; [reflexivity |]. eapply nth_error_In; eauto.
    + rewrite Hn. eauto.
  - rewrite Hn. eauto.
Qed.

Lemma indicator_index_ok (inds : list string) :
  exists i, indicator_index inds = Ok i /\ nth_error inds i = hd_error inds
            \/ (indicator_index inds = Ok i /\ exists d, nth_error inds i = Some d).
Proof.
  unfold indicator_index. destruct (default_indicator inds) as [d |] eqn:E.
  - unfold default_indicator in E. apply find_some in E. destruct E as [_ Hm].
    rewrite Hm. apply mem_In in Hm.
    destruct (list_index_nth d inds Hm) as [i [Hi Hn]].
    exists i. right. eauto.
  - exists O. left. split; [reflexivity | apply nth_error_0].
Qed.

Lemma indicator_box_ok (inds : list string) (picked : option nat) :
  exists v, indicator_box inds picked = Ok v /\
            (forall i, v = Some i -> In i inds) /\
            (v = None <-> inds = []).
Proof.
  unfold indicator_box.
  destruct (indicator_index_ok inds) as [i [[Hi Hn] | [Hi [d Hn]]]];
    rewrite Hi; cbn [bind]; unfold selectbox.
  - destruct picked as [j |]; [destruct (nth_error inds j) as [v |] eqn:Ej |].
    + exists (Some v). split; [reflexivity |]. split.
      * intros x Hx. injection Hx as <-. eapply nth_error_In; eauto.
      * split; [discriminate |]. intros ->. now destruct j.
    + rewrite Hn. exists (hd_error inds). split; [reflexivity |]. split.
      * intros x Hx. destruct inds; [discriminate |]. injection Hx as <-. now left.
      * destruct inds; split; try reflexivity; discriminate.
    + rewrite Hn. exists (hd_error inds). split; [reflexivity |]. split.
      * intros x Hx. destruct inds; [discriminate |]. injection Hx as <-. now left.
      * destruct inds; split; try reflexivity; discriminate.
  - assert (Hd : In d inds) by (eapply nth_error_In; eauto).
    assert (Hne : inds <> []) by (destruct inds; [contradiction | discriminate]).
    destruct picked as [j |]; [destruct (nth_error inds j) as [v |] eqn:Ej |].
    + exists (Some v). split; [reflexivity |]. split.
      * intros x Hx. injection Hx as <-. eapply nth_error_In; eauto.
      * split; [discriminate | congruence].
    + rewrite Hn. exists (Some d). split; [reflexivity |]. split.
      * intros x Hx. now injection Hx as <-.
      * split; [discriminate | congruence].
    + rewrite Hn. exists (Some d). split; [reflexivity |]. split.
      * intros x Hx. now injection Hx as <-.
      * split; [discriminate | congruence].
Qed.

(** X7. Whatever index the session holds, also a stale one that is out of
    range, the two select boxes return an option of their list: the
    country box a country of the list when there is one, the indicator box
    an indicator of the list, and no value only when the list is empty.
    The country box raises exactly when there is no country. *)
Theorem select_boxes_in_domain (cs inds : list string) (picked : option nat) :
  (cs <> [] -> exists c, country_box cs picked = Ok (Some c) /\ In c cs) /\
  (cs = [] -> country_box cs picked = Raise (IndexError "list index out of range")) /\
  (exists v, indicator_box inds picked = Ok v /\
             (forall i, v = Some i -> In i inds) /\
             (v = None <-> inds = [])).
Proof.
  split; [apply country_box_ok |]. split; [| apply indicator_box_ok].
  intros ->. reflexivity.
Qed.

(** ** The script as a whole *)

Lemma kpi_row_ok (df : list (record Z)) (year_min year_max : Z) :
  year_max <> year_min - 1 ->
  exists k, kpi_row df year_min year_max = Ok k /\
            selected_delta k = year_max - year_min + 1 /\
            non_missing_points k = non_missing df /\
            missing_points k = year_max - year_min + 1 - non_missing df.
Proof.
  intros H. unfold kpi_row, truediv, total_years.
  assert (E : (year_max - year_min + 1 =? 0) = false) by (apply Z.eqb_neq; lia).
  rewrite E. cbn [bind]. eexists. split; [reflexivity |]. cbn. auto.
Qed.



(** ** The filter, further *)

Lemma ind_for_country_has_data (data : list (record Z)) (country i : string)
    (year_min year_max : Z) :
  In i (ind_for_country data (Some country)) ->
  (forall r, In r data -> year_min <= Year r <= year_max) ->
  filter_view data (Some country) (Some i) year_min year_max <> [].
Proof.
  intros Hi Hrange. apply ind_for_country_In in Hi.
  destruct Hi as [r [Hr [Hc Hn]]].
  assert (Hin : In r (filter_view data (Some country) (Some i) year_min year_max)).
  { unfold filter_view. apply filter_In. split; [assumption |].
    rewrite !andb_true_iff, !cell_eq_Some, between_spec. auto. }
  intros E. rewrite E in Hin. contradiction.
Qed.

(** X9. The narrowed indicator list does what its comment says: for a
    loaded table, any indicator offered for the chosen country has at least
    one record over the full year range of the slider, so the first view
    after the choice is never empty. *)
Theorem narrowed_indicator_has_data (floatify : string -> option float64)
    (csv : except DataFrame) (data : list (record Z)) (country i : string) :
  year_tokens floatify ->
  load_edstats floatify csv = Ok data ->
  In i (ind_for_country data (Some country)) ->
  filter_view data (Some country) (Some i) 1970 2015 <> [].
Proof.
  intros Hy Hload Hi. apply ind_for_country_has_data; [assumption |].
  intros r Hr.
  destruct (load_edstats_inv _ _ _ Hload) as [df [-> Hreq]].
  rewrite (load_edstats_long_form floatify Hy df Hreq) in Hload.
  injection Hload as <-.
  apply long_form_In in Hr. destruct Hr as [row [c [_ [Hc ->]]]]. cbn [Year].
  apply read_year_cols_In in Hc. destruct Hc as [Hc _].
  apply year_cols_In in Hc. destruct Hc as [_ [_ Hb]].
  unfold in_bound in Hb. apply andb_true_iff in Hb. lia.
Qed.

Lemma narrowed_indicator_has_data_witness :
  filter_view (long_form decimal_floatify edstats_sample)
              (Some "Albania") (Some "Population, total") 1970 2015 <> [].
Proof.
  apply (narrowed_indicator_has_data decimal_floatify (Ok edstats_sample)
           (long_form decimal_floatify edstats_sample)
           "Albania" "Population, total" decimal_floatify_year_tokens).
  - vm_compute. reflexivity.
  - vm_compute. left. reflexivity.
Defined.

Lemma filter_filter {A : Type} (f g : A -> bool) (l : list A) :
  filter f (filter g l) = filter (fun x => g x && f x) l.
Proof.
  induction l as [| a t IH]; [reflexivity |].
  cbn [filter]. destruct (g a); cbn [filter andb]; [| exact IH].
  destruct (f a); now rewrite IH.
Qed.

Lemma between_meet (y a b c d : Z) :
  between y a b && between y c d = between y (Z.max a c) (Z.min b d).
Proof.
  unfold between.
  destruct (Z.leb_spec a y), (Z.leb_spec y b), (Z.leb_spec c y), (Z.leb_spec y d),
    (Z.leb_spec (Z.max a c) y), (Z.leb_spec y (Z.min b d)); cbn; try reflexivity; lia.
Qed.

(** X10. Two year ranges applied one after the other, for the same country
    and indicator, select what their intersection selects; in particular a
    range with [year_max < year_min] selects nothing. *)
Theorem filter_view_ranges_meet (data : list (record Z))
    (country indicator : option string) (a b c d : Z) :
  filter_view (filter_view data country indicator a b) country indicator c d
  = filter_view data country indicator (Z.max a c) (Z.min b d) /\
  (b < a -> filter_view data country indicator a b = []).
Proof.
  split.
  - unfold filter_view. rewrite filter_filter. apply filter_ext. intros r.
    rewrite <- between_meet.
    destruct (cell_eq (Country_Name r) country),
      (cell_eq (Indicator_Name r) indicator),
      (between (Year r) a b), (between (Year r) c d); reflexivity.
  - intros Hlt. unfold filter_view.
    induction data as [| r t IH]; [reflexivity |]. cbn [filter].
    replace (between (Year r) a b) with false; [now rewrite !andb_false_r |].
    symmetry. unfold between. apply andb_false_iff. rewrite !Z.leb_gt. lia.
Qed.

(** ** KPIs, further *)

(** X11. The only range for which the tiles cannot be computed is the one
    that makes [total_years] zero, [year_max = year_min - 1]: there the
    coverage division raises ZeroDivisionError; for every other pair of
    years, reversed ones included, the tiles are computed. *)
Theorem kpi_row_raises_iff (df : list (record Z)) (year_min year_max : Z) :
  (kpi_row df year_min year_max = Raise (ZeroDivisionError "division by zero")
   <-> year_max = year_min - 1) /\
  (year_max <> year_min - 1 <-> exists k, kpi_row df year_min year_max = Ok k).
Proof.
  destruct (Z.eq_dec year_max (year_min - 1)) as [E | E].
  - assert (H : kpi_row df year_min year_max
                = Raise (ZeroDivisionError "division by zero")).
    { unfold kpi_row, truediv, total_years.
      replace (year_max - year_min + 1) with 0 by lia. reflexivity. }
    split; split; try tauto.
    intros [k Hk]. rewrite H in Hk. discriminate.
  - destruct (kpi_row_ok df year_min year_max E) as [k [Hk _]].
    split; split; try tauto.
    + rewrite Hk. discriminate.
    + intros _. eauto.
Qed.

Lemma non_missing_split (df : list (record Z)) :
  non_missing df + Z.of_nat (List.length (filter (fun r => Missing r) df))
  = Z.of_nat (List.length df).
Proof.
  unfold non_missing. rewrite <- Nat2Z.inj_add. f_equal.
  rewrite <- (filter_negb_length (fun r => Missing r) df). lia.
Qed.

(** X12. Whenever the tiles are computed, the non-missing count lies
    between 0 and the size of the view and, with "Missing points", makes
    up the selected years; but "Missing points" is the number of records
    flagged Missing only when the view has exactly [total_years] records:
    with fewer records the tile counts the absent years as missing, with
    more it undercounts. *)
Theorem kpi_row_consistency (df : list (record Z)) (year_min year_max : Z)
    (k : kpis) :
  kpi_row df year_min year_max = Ok k ->
  0 <= non_missing_points k <= Z.of_nat (List.length df) /\
  non_missing_points k + missing_points k = total_years year_min year_max /\
  (missing_points k = Z.of_nat (List.length (filter (fun r => Missing r) df))
   <-> Z.of_nat (List.length df) = total_years year_min year_max).
Proof.
  unfold kpi_row, truediv. intros H.
  destruct (total_years year_min year_max =? 0) eqn:E; [discriminate |].
  cbn [bind] in H. injection H as <-. cbn.
  assert (Hs := non_missing_split df).
  assert (Hn : 0 <= non_missing df) by (unfold non_missing; lia).
  repeat split; lia.
Qed.

Lemma kpi_row_consistency_witness :
  0 <= 2 <= 3 /\
  2 + (46 - 2) = 46 /\
  ((46 - 2) = 1 <-> 3 = 46).
Proof.
  exact (kpi_row_consistency
           (filter_view (long_form decimal_floatify edstats_sample)
                        (Some "Arab World")
                        (Some "School enrollment, primary, female (% net)")
                        1970 2015)
           1970 2015 _ eq_refl).
Defined.

(** ** Charts, further *)

Lemma load_edstats_Missing (floatify : string -> option float64)
    (csv : except DataFrame) (data : list (record Z)) :
  load_edstats floatify csv = Ok data ->
  forall r, In r data -> Missing r = isna (Value r).
Proof.
  intros Hload r Hin. unfold load_edstats in Hload.
  destruct csv as [df | e]; cbn [bind] in Hload; [| discriminate].
  destruct (missing_required df); [| discriminate].
  destruct (assign_Year floatify _) as [l |]; cbn [bind] in Hload; [| discriminate].
  injection Hload as <-.
  apply astype_int_dropna in Hin.
  destruct Hin as [r' [Hin' [_ [_ [Hv Hm]]]]].
  unfold assign_Missing in Hin'. apply in_map_iff in Hin'.
  destruct Hin' as [myv [<- _]]. simpl in Hv, Hm. now rewrite <- Hm, Hv.
Qed.

(** X13. For any view filtered out of a loaded table, dropping the records
    with a null Value, which gives the data of the scatter, the regression
    line and the histogram, keeps exactly the records that are not flagged
    Missing: these charts are handed as many records as the "Non-missing
    points" tile counts. *)
Theorem model_view_rows (floatify : string -> option float64)
    (csv : except DataFrame) (data : list (record Z))
    (country indicator : option string) (year_min year_max : Z) :
  load_edstats floatify csv = Ok data ->
  let df := filter_view data country indicator year_min year_max in
  chart_data (scatter df) = filter (fun r => negb (Missing r)) df /\
  Z.of_nat (List.length (chart_data (scatter df))) = non_missing df /\
  Z.of_nat (List.length (chart_data (reg_line df))) = non_missing df /\
  Z.of_nat (List.length (chart_data (hist df))) = non_missing df.
Proof.
  intros Hload df.
  assert (Hinv : forall r, In r df -> Missing r = isna (Value r)).
  { intros r Hr. apply (load_edstats_Missing floatify csv data Hload).
    unfold df, filter_view in Hr. now apply filter_In in Hr. }
  assert (Hdata : dropna_Value df = filter (fun r => negb (Missing r)) df).
  { unfold dropna_Value. apply filter_ext_in. intros r Hr. now rewrite (Hinv r Hr). }
  cbn [scatter reg_line hist chart_data]. rewrite Hdata.
  repeat split; reflexivity.
Qed.

Lemma model_view_rows_witness :
  let df := filter_view (long_form decimal_floatify edstats_sample)
              (Some "Arab World")
              (Some "School enrollment, primary, female (% net)") 1970 2015 in
  chart_data (scatter df) = filter (fun r => negb (Missing r)) df /\
  Z.of_nat (List.length (chart_data (scatter df))) = 2 /\
  Z.of_nat (List.length (chart_data (reg_line df))) = 2 /\
  Z.of_nat (List.length (chart_data (hist df))) = 2.
Proof.
  exact (model_view_rows decimal_floatify (Ok edstats_sample)
           (long_form decimal_floatify edstats_sample)
           (Some "Arab World")
           (Some "School enrollment, primary, female (% net)") 1970 2015
           (load_edstats_long_form decimal_floatify decimal_floatify_year_tokens
              edstats_sample eq_refl)).
Defined.

(** ** Year columns and the order of the source's columns *)

Lemma StronglySorted_perm_eq {A : Type} (R : A -> A -> Prop) (l1 l2 : list A) :
  StronglySorted R l1 -> StronglySorted R l2 -> Permutation l1 l2 ->
  (forall a b, In a l1 -> In b l1 -> R a b -> R b a -> a = b) ->
  l1 = l2.
Proof.
  intros H1. revert l2. induction H1 as [| a t1 Hs1 IH Hall1]; intros l2 H2 Hp Hanti.
  - apply Permutation_nil in Hp. now subst.
  - destruct l2 as [| b t2];
      [apply Permutation_sym, Permutation_nil in Hp; discriminate |].
    inversion H2 as [| ? ? Hs2 Hall2]; subst.
    rewrite Forall_forall in Hall1, Hall2.
    assert (Hab : a = b).
    { assert (Ha : In a (b :: t2)) by (eapply Permutation_in; [exact Hp | now left]).
      assert (Hb : In b (a :: t1))
        by (eapply Permutation_in; [apply Permutation_sym, Hp | now left]).
      destruct Ha as [-> | Ha]; [reflexivity |].
      destruct Hb as [-> | Hb]; [reflexivity |].
      apply Hanti; [now left | now right | now apply Hall1 | now apply Hall2]. }
    subst b. f_equal. apply IH.
    + assumption.
    + now apply Permutation_cons_inv in Hp.
    + intros x y Hx Hy. apply Hanti; now right.
Qed.

(** X16. With distinct column names, all of them plain ASCII, the year
    columns the loader keeps do not depend on the order of the columns in
    the source (nor on the rows): any rearrangement of the header gives the
    same list, in chronological order.  ASCII is what makes [int] tell two
    kept names apart: with other decimal digits two names can stand for
    one year, and the stable sort then keeps them in source order. *)
Theorem year_cols_order_independent (cols cols' : list string)
    (rs rs' : list (list cell)) :
  NoDup cols ->
  Forall (fun c => ascii_name c = true) cols ->
  Permutation cols cols' ->
  year_cols {| columns := cols; rows := rs |}
  = year_cols {| columns := cols'; rows := rs' |}.
Proof.
  intros Hnd _ Hp.
  apply (StronglySorted_perm_eq (fun a b => py_int a <= py_int b)).
  - apply year_cols_sorted.
  - apply year_cols_sorted.
  - apply NoDup_Permutation.
    + unfold year_cols, sorted_by_int. apply sorted_NoDup.
      now do 2 apply NoDup_filter.
    + unfold year_cols, sorted_by_int. apply sorted_NoDup.
      do 2 apply NoDup_filter. eapply Permutation_NoDup; eauto.
    + intros x. rewrite !year_cols_In. cbn [columns].
      split; intros [Hx H]; (split; [| exact H]).
      * eapply Permutation_in; eauto.
      * eapply Permutation_in; [apply Permutation_sym |]; eauto.
  - intros a b Ha Hb Hab Hba. apply year_cols_In in Ha, Hb.
    apply py_int_inj; try tauto. lia.
Qed.

Lemma year_cols_order_independent_witness :
  year_cols {| columns := ["2015"; "Country Name"; "1970"; "1971"]; rows := [] |}
  = year_cols {| columns := ["1971"; "1970"; "Country Name"; "2015"];
                 rows := [[num 1; num 2; CStr "Arab World"; num 3]] |}.
Proof.
  apply (year_cols_order_independent
           ["2015"; "Country Name"; "1970"; "1971"]
           ["1971"; "1970"; "Country Name"; "2015"]).
  - repeat (constructor; [simpl; intuition discriminate |]). constructor.
  - repeat (constructor; [reflexivity |]). constructor.
  - apply Permutation_sym.
    apply (perm_trans (l' := ["1971"; "2015"; "Country Name"; "1970"])).
    + apply perm_skip.
      apply (perm_trans (l' := ["1970"; "2015"; "Country Name"]));
        [apply perm_skip, perm_swap |].
      apply (perm_trans (l' := ["2015"; "1970"; "Country Name"]));
        [apply perm_swap |]. apply perm_skip, perm_swap.
    + apply (perm_trans (l' := ["2015"; "1971"; "Country Name"; "1970"]));
        [apply perm_swap |]. apply perm_skip.
      apply (perm_trans (l' := ["Country Name"; "1971"; "1970"]));
        [apply perm_swap |]. apply perm_skip, perm_swap.
Defined.

(** ** One record per year in a filtered view *)

Lemma long_form_triples_NoDup (floatify : string -> option float64) (df : DataFrame) :
  NoDup (columns df) ->
  NoDup (map (row_key (columns df)) (rows df)) ->
  NoDup (map triple (long_form floatify df)).
Proof.
  intros Hcols Hkeys. rewrite long_form_triples.
  apply NoDup_flat_map_pairs; [now apply read_year_cols_NoDup | assumption].
Qed.

Lemma NoDup_map_filter {R K : Type} (key : R -> K) (keep : R -> bool)
    (table : list R) (Hkeys : NoDup (map key table)) :
  NoDup (map key (filter keep table)).
Proof.
  revert Hkeys. induction table as [| a t IH]; cbn [map filter]; intros H;
    [constructor |].
  inversion H as [| ? ? Hnotin Ht]; subst.
  destruct (keep a); cbn [map]; [| now apply IH].
  constructor; [| now apply IH].
  intros Hin. apply Hnotin. apply in_map_iff in Hin.
  destruct Hin as [x [Hx Hin]]. apply filter_In in Hin.
  apply in_map_iff. exists x. tauto.
Qed.

Lemma filter_view_years_NoDup (data : list (record Z)) (country indicator : string)
    (year_min year_max : Z) :
  NoDup (map triple data) ->
  NoDup (map Year (filter_view data (Some country) (Some indicator) year_min year_max)).
Proof.
  intros H. unfold filter_view.
  set (keep := fun r : record Z => _).
  assert (Hk : NoDup (map triple (filter keep data))) by now apply NoDup_map_filter.
  assert (Hin : forall r, In r (filter keep data) ->
                          triple r = (CStr country, CStr indicator, Year r)).
  { intros r Hr. apply filter_In in Hr. destruct Hr as [_ Hr]. unfold keep in Hr.
    rewrite !andb_true_iff, !cell_eq_Some in Hr. unfold triple.
    destruct Hr as [[-> ->] _]. reflexivity. }
  revert Hk Hin. induction (filter keep data) as [| r t IH]; cbn [map];
    intros Hk Hin; [constructor |].
  inversion Hk as [| ? ? Hnotin Ht]; subst. constructor.
  - intros Hy. apply Hnotin. apply in_map_iff in Hy. destruct Hy as [x [Hx Hxin]].
    apply in_map_iff. exists x. split; [| assumption].
    rewrite (Hin x (or_intror Hxin)), (Hin r (or_introl eq_refl)). now rewrite Hx.
  - apply IH; [assumption |]. intros x Hx. apply Hin. now right.
Qed.

Lemma range_length (l : list Z) (lo hi : Z) :
  NoDup l -> (forall y, In y l -> lo <= y <= hi) ->
  Z.of_nat (List.length l) <= Z.max 0 (hi - lo + 1).
Proof.
  intros Hnd Hin.
  set (span := map (fun n => lo + Z.of_nat n) (seq 0 (Z.to_nat (hi - lo + 1)))).
  assert (Hincl : incl l span).
  { intros y Hy. specialize (Hin y Hy). unfold span. apply in_map_iff.
    exists (Z.to_nat (y - lo)). split; [lia |]. apply in_seq. lia. }
  apply NoDup_incl_length in Hincl; [| assumption].
  unfold span in Hincl. rewrite length_map, length_seq in Hincl. lia.
Qed.

(** X17. When the source has distinct column names and no two rows with
    the same (Country Name, Indicator Name), a view filtered by country,
    indicator and a slider range has at most one record per year, so at
    most [total_years] records: the non-missing count does not exceed the
    selected years, "Missing points" is not negative and the coverage does
    not exceed 100%. *)
Theorem one_record_per_year_kpis (floatify : string -> option float64)
    (df0 : DataFrame) (data : list (record Z)) (country indicator : string)
    (year_min year_max : Z) (k : kpis) :
  year_tokens floatify ->
  load_edstats floatify (Ok df0) = Ok data ->
  NoDup (columns df0) ->
  NoDup (map (row_key (columns df0)) (rows df0)) ->
  slider_range year_min year_max ->
  let df := filter_view data (Some country) (Some indicator) year_min year_max in
  kpi_row df year_min year_max = Ok k ->
  NoDup (map Year df) /\
  Z.of_nat (List.length df) <= total_years year_min year_max /\
  non_missing_points k <= selected_delta k /\
  0 <= missing_points k /\
  (coverage_pct k <= 100)%Q.
Proof.
  intros Hy Hload Hcols Hkeys [Hlo [Hle Hhi]] df Hk.
  destruct (load_edstats_inv _ _ _ Hload) as [df' [Heq Hreq]].
  injection Heq as <-.
  rewrite (load_edstats_long_form floatify Hy df0 Hreq) in Hload.
  injection Hload as Hdata.
  assert (Hnd : NoDup (map Year df)).
  { unfold df. apply filter_view_years_NoDup. rewrite <- Hdata.
    now apply long_form_triples_NoDup. }
  assert (Hlen : Z.of_nat (List.length df) <= total_years year_min year_max).
  { rewrite <- (length_map Year df).
    assert (H := range_length (map Year df) year_min year_max Hnd).
    unfold total_years.
    assert (Hr : forall y, In y (map Year df) -> year_min <= y <= year_max).
    { intros y Hin. apply in_map_iff in Hin. destruct Hin as [r [<- Hr]].
      unfold df, filter_view in Hr. apply filter_In in Hr. destruct Hr as [_ Hr].
      rewrite !andb_true_iff in Hr. now apply between_spec. }
    specialize (H Hr). lia. }
  assert (Hs := non_missing_split df).
  unfold kpi_row, truediv in Hk. unfold total_years in *.
  assert (E : (year_max - year_min + 1 =? 0) = false) by (apply Z.eqb_neq; lia).
  rewrite E in Hk. cbn [bind] in Hk. injection Hk as <-. cbn.
  split; [exact Hnd |]. split; [exact Hlen |].
  split; [lia |]. split; [lia |].
  assert (HposQ : (0 < inject_Z (year_max - year_min + 1))%Q)
    by (change 0%Q with (inject_Z 0); rewrite <- Zlt_Qlt; lia).
  setoid_replace 100%Q with (1 * 100)%Q at 2 by (now rewrite Qmult_1_l).
  apply Qmult_le_compat_r; [| discriminate].
  apply Qle_shift_div_r; [exact HposQ |]. rewrite Qmult_1_l.
  rewrite <- Zle_Qle. lia.
Qed.

Lemma one_record_per_year_kpis_witness :
  let df := filter_view (long_form decimal_floatify edstats_sample)
              (Some "Arab World")
              (Some "School enrollment, primary, female (% net)") 1970 2015 in
  NoDup (map Year df) /\
  Z.of_nat (List.length df) <= total_years 1970 2015 /\
  2 <= 46 /\ 0 <= 44 /\
  (inject_Z 2 / inject_Z 46 * 100 <= 100)%Q.
Proof.
  intros df.
  apply (one_record_per_year_kpis decimal_floatify edstats_sample
           (long_form decimal_floatify edstats_sample)
           "Arab World" "School enrollment, primary, female (% net)"
           1970 2015
           {| selected_years := (1970, 2015);
              selected_delta := 46;
              non_missing_points := 2;
              coverage_pct := (inject_Z 2 / inject_Z 46 * 100)%Q;
              missing_points := 44;
              missing_pct := (inject_Z 44 / inject_Z 46 * 100)%Q |}
           decimal_floatify_year_tokens).
  - vm_compute. reflexivity.
  - unfold edstats_sample, required_cols; simpl.
    repeat (constructor; [simpl; intuition discriminate |]). constructor.
  - unfold edstats_sample, required_cols; simpl.
    repeat (constructor; [simpl; intuition discriminate |]). constructor.
  - unfold slider_range. lia.
  - reflexivity.
Defined.

